(** * The Button component of the React package

    A shallow embedding of the [Button] function component: its render
    (class composition, host selection, emitted attributes), the
    [iconDescription] prop validator, and the interaction handlers
    together with the part of the browser they act on (the class lists of
    the page, the keydown listeners of [document], the pending timeouts).

    React's reconciliation is not part of the embedding.  The page holds
    the class lists as the handlers find them (any rewrite from outside is
    the event [EvPage]), and the calls a handler makes to the state
    setters are applied to the instance's hook state in call order; a
    handler reads the state of the last render, which is the state the
    instance has when the event arrives. *)

From Stdlib Require Import ZArith Ascii String List Lia Bool.
From stdpp Require Import base decidable option list gmap strings.

Local Open Scope Z_scope.
Local Open Scope string_scope.
Local Open Scope list_scope.
Local Open Scope stdpp_scope.

(* ===================================================================== *)
(** ** JavaScript values *)
(* ===================================================================== *)

(** The values the component handles.  [JRef] is an object or function
    known only by reference (a component, a ref object, a handler). *)
Inductive jsval :=
| JUndefined
| JNull
| JBool (b : bool)
| JNum (n : Z)
| JStr (s : string)
| JRef (r : string).

#[global] Instance jsval_eq_dec : EqDecision jsval.
Proof. solve_decision. Defined.

(** ToBoolean. *)
Definition truthy (v : jsval) : bool :=
  match v with
  | JUndefined | JNull => false
  | JBool b => b
  | JNum n => negb (n =? 0)%Z
  | JStr s => negb (String.eqb s "")
  | JRef _ => true
  end.

(** [a && b], [a || b], [!a] and [a === b]. *)
Definition js_and (a b : jsval) : jsval := if truthy a then b else a.
Definition js_or (a b : jsval) : jsval := if truthy a then a else b.
Definition js_not (a : jsval) : jsval := JBool (negb (truthy a)).
Definition strict_eq (a b : jsval) : jsval := JBool (bool_decide (a = b)).

(** An optional prop: absent is [undefined]. *)
Definition js_opt {A} (f : A -> jsval) (o : option A) : jsval :=
  match o with Some x => f x | None => JUndefined end.

(** A plain object: its own enumerable string keys in insertion order.
    Assigning an existing key keeps the key's place and replaces its value. *)
Abbreviation jsobj := (list (string * jsval)).

Fixpoint obj_set (k : string) (v : jsval) (o : jsobj) : jsobj :=
  match o with
  | [] => [(k, v)]
  | (k', v') :: o' =>
      if decide (k' = k) then (k, v) :: o' else (k', v') :: obj_set k v o'
  end.

Fixpoint obj_get (k : string) (o : jsobj) : jsval :=
  match o with
  | [] => JUndefined
  | (k', v') :: o' => if decide (k' = k) then v' else obj_get k o'
  end.

(** An object literal [{ k1: v1, ..., kn: vn }] (computed keys included),
    and the spread of [src] into an object under construction. *)
Definition obj_literal (entries : list (string * jsval)) : jsobj :=
  fold_left (fun o kv => obj_set (fst kv) (snd kv) o) entries [].

Definition obj_spread (o src : jsobj) : jsobj :=
  fold_left (fun o kv => obj_set (fst kv) (snd kv) o) src o.

(** The last assignment of a key is the one that is read. *)
Definition last_assigned (k : string) (es : list (string * jsval)) (d : jsval) : jsval :=
  fold_left (fun acc kv => if decide (kv.1 = k) then kv.2 else acc) es d.

(** Reading a literal from its last entry backwards. *)
Fixpoint first_assigned (k : string) (es : list (string * jsval)) (d : jsval) : jsval :=
  match es with
  | [] => d
  | (k', v') :: es' => if decide (k' = k) then v' else first_assigned k es' d
  end.

(** The keys whose values are truthy. *)
Definition truthy_keys (o : jsobj) : list string :=
  (filter (fun kv => truthy kv.2 = true) o).*1.

(* ===================================================================== *)
(** ** Class attributes *)
(* ===================================================================== *)

(** ASCII whitespace, which separates the tokens of a class attribute. *)
Definition is_space (a : ascii) : bool :=
  match nat_of_ascii a with
  | 9%nat | 10%nat | 12%nat | 13%nat | 32%nat => true
  | _ => false
  end.

Definition cons_word (w : string) (ws : list string) : list string :=
  if String.eqb w "" then ws else w :: ws.

(** [split_go s] is the word [s] starts with (empty when [s] starts with
    a space) and the words after it. *)
Fixpoint split_go (s : string) : string * list string :=
  match s with
  | EmptyString => (EmptyString, [])
  | String a s' =>
      let '(w, ws) := split_go s' in
      if is_space a then (EmptyString, cons_word w ws) else (String a w, ws)
  end.

(** The class tokens of an attribute value. *)
Definition tokens (s : string) : list string :=
  let '(w, ws) := split_go s in cons_word w ws.

Definition has_class (c : string) (attr : string) : Prop := c ∈ tokens attr.

#[global] Instance has_class_dec c attr : Decision (has_class c attr).
Proof. unfold has_class. apply _. Defined.

Fixpoint no_space (s : string) : bool :=
  match s with
  | EmptyString => true
  | String a s' => negb (is_space a) && no_space s'
  end.

(** The [classnames] package, for the call shape the component uses: one
    string argument (skipped when falsy) and one object whose keys are
    kept when their values are truthy; the pieces are joined by a space. *)
Definition class_pieces (cls : option string) (o : jsobj) : list string :=
  (match cls with
   | Some s => if truthy (JStr s) then [s] else []
   | None => []
   end)
  ++ truthy_keys o.

Definition classNames (cls : option string) (o : jsobj) : string :=
  String.concat " " (class_pieces cls o).

(* ===================================================================== *)
(** ** What the module imports *)
(* ===================================================================== *)

(** A keydown event of the DOM, by the fields that name its key. *)
Record KeyboardEvent := { key : string; which : Z; keyCode : Z }.

(** The imports whose source is outside the component: [settings.prefix]
    of carbon-components; [matches] and [keys.Escape] of internal/keyboard,
    with [Key] the type of an entry of its [keys] table; and what
    [toggleClass(element, name, add)] of tools/toggleClass makes of the
    element's class list. *)
Class Imports := {
  prefix : string;
  Key : Type;
  matches : KeyboardEvent -> list Key -> bool;
  keys_Escape : Key;
  toggle_tokens : string -> bool -> list string -> list string;
}.

(* ===================================================================== *)
(** ** Props *)
(* ===================================================================== *)

(** What [React.createElement] accepts as a type: a host tag or a
    component. *)
Inductive ElementType :=
| HostTag (tag : string)
| Component (c : string).

#[global] Instance ElementType_eq_dec : EqDecision ElementType.
Proof. solve_decision. Defined.

(** A renderable node ([PropTypes.node]). *)
#[warnings="-register-all"]
Inductive ReactNode :=
| RNull
| RText (s : string)
| RNum (n : Z)
| RElem (ty : ElementType) (props : jsobj) (kids : list ReactNode).

(** [PropTypes.oneOf] lists. *)
Inductive ButtonSize := SizeDefault | SizeField | SizeSmall | SizeSm | SizeLg | SizeXl.
Inductive TooltipAlignment := AlignStart | AlignCenter | AlignEnd.
Inductive TooltipPosition := PosTop | PosRight | PosBottom | PosLeft.
Inductive ButtonType := TypeButton | TypeReset | TypeSubmit.

Definition size_name (s : ButtonSize) : string :=
  match s with
  | SizeDefault => "default" | SizeField => "field" | SizeSmall => "small"
  | SizeSm => "sm" | SizeLg => "lg" | SizeXl => "xl"
  end.

Definition alignment_name (a : TooltipAlignment) : string :=
  match a with AlignStart => "start" | AlignCenter => "center" | AlignEnd => "end" end.

Definition position_name (p : TooltipPosition) : string :=
  match p with
  | PosTop => "top" | PosRight => "right" | PosBottom => "bottom" | PosLeft => "left"
  end.

Definition type_name (t : ButtonType) : string :=
  match t with TypeButton => "button" | TypeReset => "reset" | TypeSubmit => "submit" end.

(** The props the component destructures, typed as [Button.propTypes]
    declares them; [None] is an absent prop.  [other] is the rest object.
    The four event callbacks are left out: they reach the handlers only
    through [composeEventHandlers]. *)
Record Props := {
  children : ReactNode;
  as_ : option ElementType;
  className : option string;
  disabled : option bool;
  small : option bool;
  size : option ButtonSize;
  kind : option string;
  href : option string;
  isSelected : option bool;
  tabIndex : option Z;
  type_ : option ButtonType;
  renderIcon : option string;
  iconDescription : option string;
  hasIconOnly : option bool;
  tooltipPosition : option TooltipPosition;
  tooltipAlignment : option TooltipAlignment;
  other : jsobj;
}.

(** The configuration [{kind: "ghost", hasIconOnly: true, isSelected: true}]. *)
Definition ghost_selected : Props :=
  {| children := RNull; as_ := None; className := None; disabled := None;
     small := None; size := None; kind := Some "ghost"; href := None;
     isSelected := Some true; tabIndex := None; type_ := None; renderIcon := None;
     iconDescription := None; hasIconOnly := Some true; tooltipPosition := None;
     tooltipAlignment := None; other := [] |}.

Definition or_default {A} (d : A) (o : option A) : option A :=
  match o with Some x => Some x | None => Some d end.

(** [Button.defaultProps], applied to the absent props. *)
Definition defaultProps (p : Props) : Props :=
  {| children := children p; as_ := as_ p; className := className p;
     disabled := or_default false (disabled p);
     small := small p;
     size := or_default SizeDefault (size p);
     kind := or_default "primary" (kind p);
     href := href p; isSelected := isSelected p;
     tabIndex := or_default 0%Z (tabIndex p);
     type_ := or_default TypeButton (type_ p);
     renderIcon := renderIcon p; iconDescription := iconDescription p;
     hasIconOnly := hasIconOnly p;
     tooltipPosition := or_default PosTop (tooltipPosition p);
     tooltipAlignment := or_default AlignCenter (tooltipAlignment p);
     other := other p |}.

(** Template-literal conversion of an optional string-like prop. *)
Definition template {A} (f : A -> string) (o : option A) : string :=
  match o with Some x => f x | None => "undefined" end.

(** Truthiness of a node and of an element type. *)
Definition node_truthy (n : ReactNode) : bool :=
  match n with
  | RNull => false
  | RText s => truthy (JStr s)
  | RNum n => truthy (JNum n)
  | RElem _ _ _ => true
  end.

Definition type_truthy (t : option ElementType) : bool :=
  match t with
  | None => false
  | Some (HostTag tag) => truthy (JStr tag)
  | Some (Component _) => true
  end.

(* ===================================================================== *)
(** ** Hook state and render *)
(* ===================================================================== *)

(** The three [useState] cells. *)
Record HookState := {
  allowTooltipVisibility : bool;
  isHovered : bool;
  isFocused : bool;
}.

(** [useState(true)], [useState(false)], [useState(false)]. *)
Definition initial_hooks : HookState :=
  {| allowTooltipVisibility := true; isHovered := false; isFocused := false |}.

Section Render.
Context `{Imports}.

Definition cls (suffix : string) : string := prefix +:+ suffix.

(** The object handed to [classNames]. *)
Definition buttonClassMap (p : Props) (st : HookState) : jsobj :=
  let size' := js_opt (fun s => JStr (size_name s)) (size p) in
  let hasIconOnly' := js_opt JBool (hasIconOnly p) in
  let kind' := js_opt JStr (kind p) in
  obj_literal
    [ (cls "--btn", JBool true);
      (cls "--btn--field", strict_eq size' (JStr "field"));
      (cls "--btn--sm",
        js_or (js_or (strict_eq size' (JStr "small"))
                     (strict_eq size' (JStr "sm")))
              (js_opt JBool (small p)));
      (cls "--btn--lg", strict_eq size' (JStr "lg"));
      (cls "--btn--xl", strict_eq size' (JStr "xl"));
      (cls ("--btn--" +:+ template id (kind p)), kind');
      (cls "--btn--disabled", js_opt JBool (disabled p));
      (cls "--tooltip--hidden",
        js_and hasIconOnly' (js_not (JBool (allowTooltipVisibility st))));
      (cls "--tooltip--visible", JBool (isHovered st));
      (cls "--btn--icon-only", hasIconOnly');
      (cls "--btn--selected",
        js_and (js_and hasIconOnly' (js_opt JBool (isSelected p)))
               (strict_eq kind' (JStr "ghost")));
      (cls "--tooltip__trigger", hasIconOnly');
      (cls "--tooltip--a11y", hasIconOnly');
      (cls ("--tooltip--" +:+ template position_name (tooltipPosition p)),
        js_and hasIconOnly'
               (js_opt (fun x => JStr (position_name x)) (tooltipPosition p)));
      (cls ("--tooltip--align-" +:+ template alignment_name (tooltipAlignment p)),
        js_and hasIconOnly'
               (js_opt (fun x => JStr (alignment_name x)) (tooltipAlignment p))) ].

Definition buttonClasses (p : Props) (st : HookState) : string :=
  classNames (className p) (buttonClassMap p st).

(** The icon element, or [null]. *)
Definition buttonImage (p : Props) : ReactNode :=
  match renderIcon p with
  | None => RNull
  | Some ButtonImageElement =>
      RElem (Component ButtonImageElement)
        (obj_literal
           [ ("aria-label", js_opt JStr (iconDescription p));
             ("className", JStr (cls "--btn__icon"));
             ("aria-hidden", JStr "true") ])
        []
  end.

(** The tooltip body, or [null]. *)
Definition assistiveText (p : Props) : ReactNode :=
  if truthy (js_opt JBool (hasIconOnly p)) then
    RElem (HostTag "div")
      (obj_literal
         [ ("ref", JRef "tooltipRef");
           ("onMouseEnter", JRef "handleMouseEnter");
           ("className", JStr (cls "--assistive-text")) ])
      [match iconDescription p with Some d => RText d | None => RNull end]
  else RNull.

(** The function component: the element it returns for props [p],
    forwarded ref [ref] and hook state [st]. *)
Definition Button (p : Props) (ref : jsval) (st : HookState) : ReactNode :=
  let hasIconOnly' := js_opt JBool (hasIconOnly p) in
  let commonProps :=
    obj_literal
      [ ("tabIndex", js_opt JNum (tabIndex p));
        ("className", JStr (buttonClasses p st));
        ("ref", ref) ] in
  let component := HostTag "button" in
  let otherProps :=
    obj_literal
      [ ("disabled", js_opt JBool (disabled p));
        ("type", js_opt (fun t => JStr (type_name t)) (type_ p));
        ("aria-pressed",
          if truthy (js_and hasIconOnly' (strict_eq (js_opt JStr (kind p)) (JStr "ghost")))
          then js_opt JBool (isSelected p) else JNull) ] in
  let anchorProps := obj_literal [ ("href", js_opt JStr (href p)) ] in
  let '(component, otherProps) :=
    if type_truthy (as_ p) then
      (default component (as_ p), obj_spread otherProps anchorProps)
    else if truthy (js_and (js_opt JStr (href p)) (js_not (js_opt JBool (disabled p)))) then
      (HostTag "a", anchorProps)
    else (component, otherProps) in
  RElem component
    (obj_spread
       (obj_spread
          (obj_spread
             (obj_literal
                [ ("onMouseEnter", JRef "composeEventHandlers([onMouseEnter, handleMouseEnter])");
                  ("onMouseLeave", JRef "composeEventHandlers([onMouseLeave, handleMouseLeave])");
                  ("onFocus", JRef "composeEventHandlers([onFocus, handleFocus])");
                  ("onBlur", JRef "composeEventHandlers([onBlur, handleBlur])") ])
             (other p))
          commonProps)
       otherProps)
    [assistiveText p; children p; buttonImage p].

(** The custom validator of [Button.propTypes.iconDescription]: the
    [Error] it returns, or [None] for [undefined]. *)
Definition propTypes_iconDescription (p : Props) : option string :=
  if truthy (js_opt JRef (renderIcon p))
     && negb (node_truthy (children p))
     && negb (truthy (js_opt JStr (iconDescription p)))
  then Some "renderIcon property specified without also providing an iconDescription property."
  else None.

End Render.

(** Reading a rendered element. *)
Definition host (n : ReactNode) : option ElementType :=
  match n with RElem ty _ _ => Some ty | _ => None end.

Definition attr (k : string) (n : ReactNode) : jsval :=
  match n with RElem _ props _ => obj_get k props | _ => JUndefined end.

Definition class_attr (n : ReactNode) : string :=
  match attr "className" n with JStr s => s | _ => "" end.

(** An attribute React writes to the DOM: neither [null] nor [undefined]. *)
Definition emitted (v : jsval) : Prop := v <> JNull /\ v <> JUndefined.

(* ===================================================================== *)
(** ** The browser and the mounted instances *)
(* ===================================================================== *)

(** An element of the page: its identity and its [classList]. *)
Record DomElement := { el_id : nat; classList : list string }.

#[global] Instance DomElement_eq_dec : EqDecision DomElement.
Proof. solve_decision. Defined.

(** A pointer or focus event as the handlers read it. *)
Record SyntheticEvent := { target : nat; currentTarget : nat }.

(** A keydown listener of [document]: somebody else's, or the
    [handleEscKeyDown] closure that instance [i]'s effect created. *)
Inductive Listener :=
| Foreign (n : nat)
| HandleEscKeyDown (i : nat).

#[global] Instance Listener_eq_dec : EqDecision Listener.
Proof. solve_decision. Defined.

(** A pending timeout.  The component schedules one callback only, the
    arrow function of [handleMouseLeave]; [owner] is the instance whose
    setters it closes over.  Times are in milliseconds. *)
Record Timer := { timer_id : nat; due : nat; owner : nat }.

(** A mounted instance: its props, hook state and the two refs. *)
Record Instance := {
  props : Props;
  hooks : HookState;
  tooltipRef : option nat;
  tooltipTimeout : option nat;
}.

(** What a handler did, in call order. *)
Inductive Action :=
| DidSetAllow (i : nat) (b : bool)
| DidSetHovered (i : nat) (b : bool)
| DidSetFocused (i : nat) (b : bool)
| DidToggleClass (n : nat) (name : string) (add : bool)
| DidSetTimeout (t : nat) (at_ : nat) (i : nat)
| DidClearTimeout (t : nat)
| DidFire (t : nat) (i : nat)
| DidAddListener (l : Listener)
| DidRemoveListener (l : Listener)
| DidMount (i : nat)
| DidUnmount (i : nat).

#[global] Instance Action_eq_dec : EqDecision Action.
Proof. solve_decision. Defined.

(** The part of the browser and of React the handlers act on: the time,
    the page's elements, the keydown listeners of [document], the pending
    timeouts and the next timer identifier, the mounted instances and the
    next instance identifier, and the log of what the handlers did. *)
Record World := {
  clock : nat;
  page : list DomElement;
  keydown : list Listener;
  pending : list Timer;
  next_timer : nat;
  fibers : gmap nat Instance;
  next_fiber : nat;
  trace : list Action;
}.

(** Field updates. *)
Definition set_clock (c : nat) (w : World) : World :=
  {| clock := c; page := page w; keydown := keydown w; pending := pending w;
     next_timer := next_timer w; fibers := fibers w; next_fiber := next_fiber w;
     trace := trace w |}.

Definition set_page (pg : list DomElement) (w : World) : World :=
  {| clock := clock w; page := pg; keydown := keydown w; pending := pending w;
     next_timer := next_timer w; fibers := fibers w; next_fiber := next_fiber w;
     trace := trace w |}.

Definition set_keydown (ls : list Listener) (w : World) : World :=
  {| clock := clock w; page := page w; keydown := ls; pending := pending w;
     next_timer := next_timer w; fibers := fibers w; next_fiber := next_fiber w;
     trace := trace w |}.

Definition set_pending (ts : list Timer) (w : World) : World :=
  {| clock := clock w; page := page w; keydown := keydown w; pending := ts;
     next_timer := next_timer w; fibers := fibers w; next_fiber := next_fiber w;
     trace := trace w |}.

Definition set_next_timer (n : nat) (w : World) : World :=
  {| clock := clock w; page := page w; keydown := keydown w; pending := pending w;
     next_timer := n; fibers := fibers w; next_fiber := next_fiber w;
     trace := trace w |}.

Definition set_fibers (fs : gmap nat Instance) (w : World) : World :=
  {| clock := clock w; page := page w; keydown := keydown w; pending := pending w;
     next_timer := next_timer w; fibers := fs; next_fiber := next_fiber w;
     trace := trace w |}.

Definition set_next_fiber (n : nat) (w : World) : World :=
  {| clock := clock w; page := page w; keydown := keydown w; pending := pending w;
     next_timer := next_timer w; fibers := fibers w; next_fiber := n;
     trace := trace w |}.

Definition log (a : Action) (w : World) : World :=
  {| clock := clock w; page := page w; keydown := keydown w; pending := pending w;
     next_timer := next_timer w; fibers := fibers w; next_fiber := next_fiber w;
     trace := trace w ++ [a] |}.

Definition set_hooks (h : HookState) (x : Instance) : Instance :=
  {| props := props x; hooks := h; tooltipRef := tooltipRef x;
     tooltipTimeout := tooltipTimeout x |}.

Definition set_tooltipTimeout (t : option nat) (x : Instance) : Instance :=
  {| props := props x; hooks := hooks x; tooltipRef := tooltipRef x;
     tooltipTimeout := t |}.

(** Handlers run in a state monad over the world. *)
Definition M (A : Type) : Type := World -> A * World.

Definition ret {A} (a : A) : M A := fun w => (a, w).

Definition bind {A B} (m : M A) (k : A -> M B) : M B :=
  fun w => let '(a, w') := m w in k a w'.

Definition exec {A} (m : M A) (w : World) : World := snd (m w).

Definition modify (f : World -> World) : M unit := fun w => (tt, f w).

Declare Scope handler_scope.
Delimit Scope handler_scope with handler.
Notation "'let*' x := m 'in' k" := (bind m (fun x => k))
  (at level 10, x name, m at level 100, k at level 200) : handler_scope.
Notation "m ;; k" := (bind m (fun _ => k))
  (at level 100, k at level 200, right associativity) : handler_scope.

Local Open Scope handler_scope.

Fixpoint for_each {A} (xs : list A) (f : A -> M unit) : M unit :=
  match xs with
  | [] => ret tt
  | x :: xs' => f x ;; for_each xs' f
  end.

(** *** Browser primitives *)

(** [document.querySelectorAll('.' + name)], as node identities in
    document order. *)
Definition select_class (name : string) (pg : list DomElement) : list nat :=
  map el_id (filter (fun e => name ∈ classList e) pg).

Definition querySelectorAll (name : string) : M (list nat) :=
  fun w => (select_class name (page w), w).

(** [setTimeout(callback, delay)] for instance [i]'s hide callback. *)
Definition setTimeout (i : nat) (delay : nat) : M nat :=
  fun w =>
    let t := next_timer w in
    (t, log (DidSetTimeout t (clock w + delay)%nat i)
          (set_next_timer (S t)
             (set_pending
                (pending w ++ [{| timer_id := t; due := (clock w + delay)%nat; owner := i |}])
                w))).

Definition clearTimeout (t : nat) : M unit :=
  modify (fun w =>
    log (DidClearTimeout t)
      (set_pending (filter (fun x => timer_id x <> t) (pending w)) w)).

(** [document.addEventListener('keydown', l)]: a listener already
    registered is not registered twice. *)
Definition addEventListener (l : Listener) : M unit :=
  modify (fun w =>
    log (DidAddListener l)
      (set_keydown (if decide (l ∈ keydown w) then keydown w else keydown w ++ [l]) w)).

Definition removeEventListener (l : Listener) : M unit :=
  modify (fun w =>
    log (DidRemoveListener l)
      (set_keydown (filter (fun x => x <> l) (keydown w)) w)).

(** *** State setters

    A setter of an instance that is no longer mounted changes nothing. *)
Definition set_state (i : nat) (f : HookState -> HookState) (w : World) : World :=
  set_fibers (alter (fun x => set_hooks (f (hooks x)) x) i (fibers w)) w.

Definition setAllowTooltipVisibility (i : nat) (b : bool) : M unit :=
  modify (fun w =>
    log (DidSetAllow i b)
      (set_state i (fun h => {| allowTooltipVisibility := b;
                                isHovered := isHovered h;
                                isFocused := isFocused h |}) w)).

Definition setIsHovered (i : nat) (b : bool) : M unit :=
  modify (fun w =>
    log (DidSetHovered i b)
      (set_state i (fun h => {| allowTooltipVisibility := allowTooltipVisibility h;
                                isHovered := b;
                                isFocused := isFocused h |}) w)).

Definition setIsFocused (i : nat) (b : bool) : M unit :=
  modify (fun w =>
    log (DidSetFocused i b)
      (set_state i (fun h => {| allowTooltipVisibility := allowTooltipVisibility h;
                                isHovered := isHovered h;
                                isFocused := b |}) w)).

(** [tooltipTimeout.current = t]. *)
Definition write_tooltipTimeout (i : nat) (t : nat) : M unit :=
  modify (fun w => set_fibers (alter (set_tooltipTimeout (Some t)) i (fibers w)) w).

(** The timeouts due, and not yet due, [dt] milliseconds from now. *)
Definition ready (dt : nat) (w : World) : list Timer :=
  filter (fun t => (due t <= clock w + dt)%nat) (pending w).

Definition later (dt : nat) (w : World) : list Timer :=
  filter (fun t => ~ (due t <= clock w + dt)%nat) (pending w).

(** A handler of instance [i] is a closure of its last render: it reads
    the instance as it stands when the event arrives.  An instance that is
    not mounted receives no event. *)
Definition with_instance (i : nat) (k : Instance -> M unit) : M unit :=
  fun w => match fibers w !! i with
           | Some x => k x w
           | None => (tt, w)
           end.

Section Handlers.
Context `{Imports}.

(** [toggleClass(element, name, add)] on node [n]: the element's class
    list becomes what the import makes of it; no other element is
    touched. *)
Definition toggle_elem (name : string) (add : bool) (e : DomElement) : DomElement :=
  {| el_id := el_id e; classList := toggle_tokens name add (classList e) |}.

Definition toggle_page (n : nat) (name : string) (add : bool)
    (pg : list DomElement) : list DomElement :=
  map (fun e => if decide (el_id e = n) then toggle_elem name add e else e) pg.

Definition toggleClass (n : nat) (name : string) (add : bool) : M unit :=
  modify (fun w =>
    log (DidToggleClass n name add) (set_page (toggle_page n name add (page w)) w)).

Definition closeTooltips (evt : SyntheticEvent) : M unit :=
  let* tooltipNode := querySelectorAll (cls "--tooltip--a11y") in
  for_each tooltipNode (fun node =>
    toggleClass node (cls "--tooltip--hidden")
      (negb (bool_decide (node = currentTarget evt)))).

Definition handleFocus (i : nat) (evt : SyntheticEvent) : M unit :=
  with_instance i (fun x =>
    closeTooltips evt ;;
    setIsHovered i (negb (isHovered (hooks x))) ;;
    setIsFocused i true ;;
    setAllowTooltipVisibility i true).

Definition handleBlur (i : nat) : M unit :=
  with_instance i (fun _ =>
    setIsHovered i false ;;
    setIsFocused i false ;;
    setAllowTooltipVisibility i false).

(** [tooltipTimeout.current && clearTimeout(tooltipTimeout.current)]. *)
Definition clear_tooltipTimeout (x : Instance) : M unit :=
  match tooltipTimeout x with
  | Some t => if truthy (JNum (Z.of_nat t)) then clearTimeout t else ret tt
  | None => ret tt
  end.

Definition handleMouseEnter (i : nat) (evt : SyntheticEvent) : M unit :=
  with_instance i (fun x =>
    setIsHovered i true ;;
    clear_tooltipTimeout x ;;
    if decide (Some (target evt) = tooltipRef x) then
      setAllowTooltipVisibility i true
    else
      closeTooltips evt ;;
      setAllowTooltipVisibility i true).

(** The arrow function handed to [setTimeout]. *)
Definition hide (i : nat) : M unit :=
  setAllowTooltipVisibility i false ;;
  setIsHovered i false.

Definition handleMouseLeave (i : nat) : M unit :=
  with_instance i (fun x =>
    if negb (isFocused (hooks x)) then
      let* t := setTimeout i 100 in
      write_tooltipTimeout i t
    else ret tt).

Definition handleEscKeyDown (i : nat) (event : KeyboardEvent) : M unit :=
  if matches event [keys_Escape] then
    setAllowTooltipVisibility i false ;;
    setIsHovered i false
  else ret tt.

(** The first render and commit of a new instance, then its effect.
    [tip] is the node React creates for the assistive text. *)
Definition mount (p : Props) (tip : nat) : M nat :=
  fun w =>
    let i := next_fiber w in
    let x := {| props := defaultProps p; hooks := initial_hooks;
                tooltipRef := if truthy (js_opt JBool (hasIconOnly p))
                              then Some tip else None;
                tooltipTimeout := None |} in
    (i, exec (addEventListener (HandleEscKeyDown i))
          (log (DidMount i)
             (set_next_fiber (S i) (set_fibers (<[i := x]> (fibers w)) w)))).

(** Unmount: the effect's cleanup, then the instance is gone. *)
Definition unmount (i : nat) : M unit :=
  with_instance i (fun _ =>
    removeEventListener (HandleEscKeyDown i) ;;
    modify (fun w => log (DidUnmount i) (set_fibers (delete i (fibers w)) w))).

(** A keydown event reaching [document]: every registered listener is
    called, in registration order. *)
Definition call_listener (event : KeyboardEvent) (l : Listener) : M unit :=
  match l with
  | Foreign _ => ret tt
  | HandleEscKeyDown i => handleEscKeyDown i event
  end.

Definition dispatchKeydown (event : KeyboardEvent) : M unit :=
  fun w => for_each (keydown w) (call_listener event) w.

(** [dt] milliseconds pass: every timeout that is due is taken off the
    pending list and its callback runs. *)
Definition fire (t : Timer) : M unit :=
  modify (log (DidFire (timer_id t) (owner t))) ;;
  hide (owner t).

Definition advance (dt : nat) : M unit :=
  fun w =>
    for_each (ready dt w) fire
      (set_pending (later dt w) (set_clock (clock w + dt)%nat w)).

(** What can happen to the world. [EvPage] stands for every rewrite of
    the class lists from outside the handlers (React's commit, other
    scripts). *)
Inductive Event :=
| EvMount (p : Props) (tip : nat)
| EvUnmount (i : nat)
| EvFocus (i : nat) (evt : SyntheticEvent)
| EvBlur (i : nat)
| EvMouseEnter (i : nat) (evt : SyntheticEvent)
| EvMouseLeave (i : nat)
| EvKeyDown (event : KeyboardEvent)
| EvAdvance (dt : nat)
| EvPage (pg : list DomElement).

Definition step (e : Event) : M unit :=
  match e with
  | EvMount p tip => mount p tip ;; ret tt
  | EvUnmount i => unmount i
  | EvFocus i evt => handleFocus i evt
  | EvBlur i => handleBlur i
  | EvMouseEnter i evt => handleMouseEnter i evt
  | EvMouseLeave i => handleMouseLeave i
  | EvKeyDown event => dispatchKeydown event
  | EvAdvance dt => advance dt
  | EvPage pg => modify (set_page pg)
  end.

Fixpoint run (es : list Event) : M unit :=
  match es with
  | [] => ret tt
  | e :: es' => step e ;; run es'
  end.

End Handlers.


(** A page load: no instance mounted, nothing pending, timer identifiers
    starting at 1, and only foreign listeners on [document]. *)
Definition initial_world (pg : list DomElement) (foreign : list nat) : World :=
  {| clock := 0; page := pg; keydown := map Foreign foreign; pending := [];
     next_timer := 1; fibers := ∅; next_fiber := 0; trace := [] |}.

(** The worlds a page load can evolve into. *)
Inductive reachable `{Imports} : World -> Prop :=
| reachable_initial pg foreign : reachable (initial_world pg foreign)
| reachable_step w e : reachable w -> reachable (exec (step e) w).

(** Instance [i] has no timeout pending. *)
Definition idle (i : nat) (w : World) : Prop :=
  Forall (fun t => owner t <> i) (pending w).

(** [n] mount/unmount cycles of one configuration. *)
Fixpoint cycles `{Imports} (n : nat) (p : Props) (tip : nat) (w : World) : World :=
  match n with
  | O => w
  | S n' =>
      let '(i, w1) := mount p tip w in
      cycles n' p tip (exec (unmount i) w1)
  end.

(** Pointer-leave, [d] milliseconds, pointer-enter: once per entry. *)
Definition rapid (i : nat) (moves : list (nat * SyntheticEvent)) : list Event :=
  flat_map (fun m => [EvMouseLeave i; EvAdvance (fst m); EvMouseEnter i (snd m)]) moves.

(** The hook state of instance [i], when mounted. *)
Definition hooks_of (i : nat) (w : World) : option HookState :=
  hooks <$> fibers w !! i.

(* ===================================================================== *)
(** ** Derived notions used in the statements *)
(* ===================================================================== *)

(** The hook state the hide callback and the Escape listener leave. *)
Definition hide_hooks (h : HookState) : HookState :=
  {| allowTooltipVisibility := false; isHovered := false; isFocused := isFocused h |}.

(** The page and the log of the close step, for current target [cur]. *)
Definition closed_page `{Imports} (cur : nat) (pg : list DomElement) : list DomElement :=
  fold_left
    (fun pg n =>
       toggle_page n (cls "--tooltip--hidden") (negb (bool_decide (n = cur))) pg)
    (select_class (cls "--tooltip--a11y") pg) pg.

Definition close_actions `{Imports} (cur : nat) (pg : list DomElement) : list Action :=
  map (fun n => DidToggleClass n (cls "--tooltip--hidden") (negb (bool_decide (n = cur))))
      (select_class (cls "--tooltip--a11y") pg).

(** What [clear_tooltipTimeout] logs. *)
Definition clear_actions (x : Instance) : list Action :=
  match tooltipTimeout x with
  | Some t => if truthy (JNum (Z.of_nat t)) then [DidClearTimeout t] else []
  | None => []
  end.

(** A step that mounts and unmounts nothing: the listeners and the set of
    mounted instances stay, timer identifiers are only handed out. *)
Definition quiet (w w' : World) : Prop :=
  keydown w' = keydown w
  /\ next_fiber w' = next_fiber w
  /\ (forall j, is_Some (fibers w' !! j) <-> is_Some (fibers w !! j))
  /\ (next_timer w <= next_timer w')%nat
  /\ (forall t, t ∈ pending w' -> t ∈ pending w \/ (timer_id t < next_timer w')%nat).

(** A computation every run of which is related by [R]. *)
Definition keeps (R : World -> World -> Prop) {A} (m : M A) : Prop :=
  forall w, R w (m w).2.

(** How often a timeout of instance [i] has fired in a log. *)
Definition is_fire (i : nat) (a : Action) : bool :=
  match a with
  | DidFire _ j => bool_decide (j = i)
  | _ => false
  end.

Definition fires (i : nat) (tr : list Action) : nat :=
  length (filter (fun a => is_fire i a = true) tr).

(** The log only grew, and by no firing of a timeout of instance [i]. *)
Definition no_fire (i : nat) (w w' : World) : Prop :=
  exists acts, trace w' = trace w ++ acts /\ fires i acts = 0%nat.

(** The instance as the hide callback leaves it. *)
Definition hide_instance (x : Instance) : Instance :=
  set_hooks (hide_hooks (hooks x)) x.

(** The instances after the hide callback ran for each of [js]. *)
Definition hide_all (js : list nat) (fs : gmap nat Instance) : gmap nat Instance :=
  fold_left (fun fs j => alter hide_instance j fs) js fs.

(** The instances whose Escape listener is among [ls]. *)
Definition esc_ids (ls : list Listener) : list nat :=
  omap (fun l => match l with HandleEscKeyDown j => Some j | Foreign _ => None end) ls.

(** What the firing of timeouts [ts] logs. *)
Definition fire_actions (ts : list Timer) : list Action :=
  flat_map (fun t => [ DidFire (timer_id t) (owner t);
                       DidSetAllow (owner t) false;
                       DidSetHovered (owner t) false ]) ts.

(** The timeout [handleMouseLeave] schedules for instance [i] in [w]. *)
Definition hide_timer (i : nat) (w : World) : Timer :=
  {| timer_id := next_timer w; due := clock w + 100; owner := i |}.

(** The hook state of a hovered, unfocused instance whose tooltip may
    show. *)
Definition shown_hooks : HookState :=
  {| allowTooltipVisibility := true; isHovered := true; isFocused := false |}.

(** What every reachable world satisfies: the Escape listeners on
    [document] are those of the mounted instances, instance and timer
    identifiers are below the next ones to be handed out, and timer
    identifiers are positive. *)
Record wf (w : World) : Prop := {
  wf_listeners : forall i, HandleEscKeyDown i ∈ keydown w <-> is_Some (fibers w !! i);
  wf_fibers : forall i, is_Some (fibers w !! i) -> (i < next_fiber w)%nat;
  wf_next_timer : (0 < next_timer w)%nat;
  wf_pending : forall t, t ∈ pending w -> (timer_id t < next_timer w)%nat;
}.

(** [classList.add] and [classList.remove] of the DOM. *)
Definition classList_add (name : string) (cl : list string) : list string :=
  if decide (name ∈ cl) then cl else cl ++ [name].

Definition classList_remove (name : string) (cl : list string) : list string :=
  filter (fun c => c <> name) cl.

(** Modelled from the spec: [settings.prefix], internal/keyboard and
    tools/toggleClass are not among the sources.  Section 6 names a
    keyboard-event matcher that recognizes the Escape key, and section 4.1
    has the close step put the shared hidden class on every matching
    element but the current target.  An instance of the imports for the
    examples: the stock prefix, a table entry that lists key names and
    codes, a matcher that compares the event with each entry, and a
    [toggleClass] whose third argument forces the class on or off. *)
Record KeySpec := { spec_key : list string; spec_which : Z; spec_keyCode : Z }.

Definition carbon : Imports :=
  {| prefix := "bx";
     Key := KeySpec;
     matches := fun event keysToMatch =>
       existsb (fun k =>
                  existsb (String.eqb (key event)) (spec_key k)
                  || (which event =? spec_which k)%Z
                  || (keyCode event =? spec_keyCode k)%Z)
               keysToMatch;
     keys_Escape := {| spec_key := ["Escape"; "Esc"]; spec_which := 27; spec_keyCode := 27 |};
     toggle_tokens := fun name add =>
       if add then classList_add name else classList_remove name |}.

(** Example data: an icon-only configuration, a page with two icon-only
    buttons (nodes 10 and 20) and a plain element, and events. *)
Definition icon_button : Props :=
  {| children := RNull; as_ := None; className := None; disabled := None;
     small := None; size := None; kind := Some "ghost"; href := None;
     isSelected := None; tabIndex := None; type_ := None; renderIcon := Some "Add16";
     iconDescription := Some "Add"; hasIconOnly := Some true; tooltipPosition := None;
     tooltipAlignment := None; other := [] |}.

Definition two_buttons : list DomElement :=
  [ {| el_id := 10; classList := ["bx--btn"; "bx--tooltip--a11y"] |};
    {| el_id := 20; classList := ["bx--btn"; "bx--tooltip--a11y"] |};
    {| el_id := 30; classList := ["bx--header"] |} ].

Definition on_node (n : nat) : SyntheticEvent := {| target := n; currentTarget := n |}.

Definition escape_key : KeyboardEvent := {| key := "Escape"; which := 27; keyCode := 27 |}.

(** A disabled button that was given an href. *)
Definition disabled_link : Props :=
  {| children := RText "Docs"; as_ := None; className := None; disabled := Some true;
     small := None; size := None; kind := None; href := Some "#";
     isSelected := None; tabIndex := None; type_ := None; renderIcon := None;
     iconDescription := None; hasIconOnly := None; tooltipPosition := None;
     tooltipAlignment := None; other := [] |}.

(** An icon-only button that is selected but of the primary kind. *)
Definition primary_selected : Props :=
  {| children := RNull; as_ := None; className := Some "toolbar-item"; disabled := None;
     small := None; size := None; kind := Some "primary"; href := None;
     isSelected := Some true; tabIndex := None; type_ := None; renderIcon := Some "Add16";
     iconDescription := Some "Add"; hasIconOnly := Some true; tooltipPosition := None;
     tooltipAlignment := None; other := [("role", JStr "switch")] |}.

(** A link: an href, not disabled. *)
Definition plain_link : Props :=
  {| children := RText "Docs"; as_ := None; className := None; disabled := None;
     small := None; size := None; kind := None; href := Some "#";
     isSelected := None; tabIndex := None; type_ := None; renderIcon := None;
     iconDescription := None; hasIconOnly := None; tooltipPosition := None;
     tooltipAlignment := None; other := [] |}.

(** An icon with neither children nor a description. *)
Definition bare_icon : Props :=
  {| children := RNull; as_ := None; className := None; disabled := None;
     small := None; size := None; kind := None; href := None;
     isSelected := None; tabIndex := None; type_ := None; renderIcon := Some "Add16";
     iconDescription := None; hasIconOnly := None; tooltipPosition := None;
     tooltipAlignment := None; other := [] |}.

(** A plain text button, hovered. *)
Definition text_button : Props :=
  {| children := RText "Save"; as_ := None; className := None; disabled := None;
     small := None; size := None; kind := None; href := None;
     isSelected := None; tabIndex := None; type_ := None; renderIcon := None;
     iconDescription := None; hasIconOnly := Some false; tooltipPosition := None;
     tooltipAlignment := None; other := [] |}.

(** A link and a button to which the caller passes [aria-pressed], and a
    button whose [className] from the caller has the selected token. *)
Definition pressed_link : Props :=
  {| children := RText "Docs"; as_ := None; className := None; disabled := Some false;
     small := None; size := None; kind := Some "primary"; href := Some "#";
     isSelected := None; tabIndex := None; type_ := None; renderIcon := None;
     iconDescription := None; hasIconOnly := None; tooltipPosition := None;
     tooltipAlignment := None; other := [("aria-pressed", JStr "true")] |}.

Definition pressed_button : Props :=
  {| children := RText "Bold"; as_ := None; className := None; disabled := Some false;
     small := None; size := None; kind := Some "primary"; href := None;
     isSelected := None; tabIndex := None; type_ := None; renderIcon := None;
     iconDescription := None; hasIconOnly := None; tooltipPosition := None;
     tooltipAlignment := None; other := [("aria-pressed", JStr "true")] |}.

Definition styled_button : Props :=
  {| children := RText "Bold"; as_ := None; className := Some "bx--btn--selected";
     disabled := Some false;
     small := None; size := None; kind := Some "primary"; href := None;
     isSelected := None; tabIndex := None; type_ := None; renderIcon := None;
     iconDescription := None; hasIconOnly := None; tooltipPosition := None;
     tooltipAlignment := None; other := [] |}.

(** A page load, one icon-only button mounted on it, the same with that
    button focused, and two icon-only buttons mounted. *)
Definition loaded : World := initial_world two_buttons [7%nat].

Definition one_mounted : World :=
  exec (run (H := carbon) [EvMount icon_button 11]) loaded.

Definition one_focused : World :=
  exec (run (H := carbon) [EvMount icon_button 11; EvFocus 0 (on_node 10)]) loaded.

Definition two_mounted : World :=
  exec (run (H := carbon) [EvMount icon_button 11; EvMount icon_button 21]) loaded.

(** An instance of [icon_button] as [mount] creates it, with tooltip node
    [tip] and hook state [h]. *)
Definition icon_instance (tip : nat) (h : HookState) : Instance :=
  {| props := defaultProps icon_button; hooks := h; tooltipRef := Some tip;
     tooltipTimeout := None |}.

(* ===================================================================== *)
(** ** Further notions *)
(* ===================================================================== *)

(** The children handed to [React.createElement]. *)
Definition rendered_children (n : ReactNode) : list ReactNode :=
  match n with RElem _ _ cs => cs | _ => [] end.

(** The keydown listeners that are not the component's. *)
Definition foreign_ids (ls : list Listener) : list nat :=
  omap (fun l => match l with Foreign n => Some n | HandleEscKeyDown _ => None end) ls.

(** The instance the first render creates. *)
Definition fresh_instance (p : Props) (tip : nat) : Instance :=
  {| props := defaultProps p; hooks := initial_hooks;
     tooltipRef := if truthy (js_opt JBool (hasIconOnly p)) then Some tip else None;
     tooltipTimeout := None |}.

(** The hook states [handleFocus], [handleBlur] and [handleMouseEnter]
    leave. *)
Definition focus_hooks (h : HookState) : HookState :=
  {| allowTooltipVisibility := true; isHovered := negb (isHovered h); isFocused := true |}.

Definition blur_hooks : HookState :=
  {| allowTooltipVisibility := false; isHovered := false; isFocused := false |}.

Definition enter_hooks (h : HookState) : HookState :=
  {| allowTooltipVisibility := true; isHovered := true; isFocused := isFocused h |}.

(** Further example data: a small disabled button of kind danger, a
    disabled link rendered through a caller's component, a selected ghost
    icon-only link, a button to whose [className] the caller adds the
    hidden token, a key that is not Escape, and a page load with one text
    button mounted. *)
Definition small_danger : Props :=
  {| children := RText "Delete"; as_ := None; className := None; disabled := Some true;
     small := None; size := Some SizeSm; kind := Some "danger"; href := None;
     isSelected := None; tabIndex := Some 0%Z; type_ := Some TypeButton;
     renderIcon := None; iconDescription := None; hasIconOnly := None;
     tooltipPosition := Some PosTop; tooltipAlignment := Some AlignCenter;
     other := [] |}.

Definition custom_link : Props :=
  {| children := RText "Docs"; as_ := Some (Component "Link"); className := None;
     disabled := Some true;
     small := None; size := None; kind := Some "primary"; href := Some "/docs";
     isSelected := None; tabIndex := Some 0%Z; type_ := Some TypeButton;
     renderIcon := None; iconDescription := None; hasIconOnly := None;
     tooltipPosition := None; tooltipAlignment := None; other := [] |}.

Definition ghost_link : Props :=
  {| children := RNull; as_ := None; className := None; disabled := Some false;
     small := None; size := None; kind := Some "ghost"; href := Some "#";
     isSelected := Some true; tabIndex := Some 0%Z; type_ := Some TypeButton;
     renderIcon := Some "Add16"; iconDescription := Some "Add";
     hasIconOnly := Some true; tooltipPosition := Some PosTop;
     tooltipAlignment := Some AlignCenter; other := [] |}.

Definition hidden_by_caller : Props :=
  {| children := RText "Save"; as_ := None; className := Some "bx--tooltip--hidden";
     disabled := Some false;
     small := None; size := None; kind := Some "primary"; href := None;
     isSelected := None; tabIndex := Some 0%Z; type_ := Some TypeButton;
     renderIcon := None; iconDescription := None; hasIconOnly := None;
     tooltipPosition := None; tooltipAlignment := None; other := [] |}.

Definition letter_key : KeyboardEvent := {| key := "a"; which := 65; keyCode := 65 |}.

Definition text_mounted : World :=
  exec (run (H := carbon) [EvMount text_button 0]) loaded.

(* ===================================================================== *)
(** * Properties *)
(* ===================================================================== *)

(** ** Strings and class tokens *)

Lemma append_inj_l (p a b : string) : p +:+ a = p +:+ b -> a = b.
Proof.
  induction p as [|c p IH]; simpl; [done|].
  intros Heq. injection Heq as Heq. auto.
Qed.

Lemma append_nonempty_r (p a : string) : a <> "" -> p +:+ a <> "".
Proof. destruct p; simpl; [done|discriminate]. Qed.

Lemma no_space_append (a b : string) :
  no_space (a +:+ b) = no_space a && no_space b.
Proof.
  induction a as [|c a IH]; simpl; [done|].
  rewrite IH. by rewrite andb_assoc.
Qed.

Lemma split_go_no_space (s : string) :
  no_space s = true -> split_go s = (s, []).
Proof.
  induction s as [|c s IH]; simpl; [done|].
  intros [Hc Hs]%andb_prop. rewrite (IH Hs).
  by destruct (is_space c).
Qed.

Lemma tokens_no_space (s : string) :
  no_space s = true -> tokens s = cons_word s [].
Proof. intros Hs. unfold tokens. by rewrite split_go_no_space. Qed.

Lemma tokens_single (s : string) :
  no_space s = true -> s <> "" -> tokens s = [s].
Proof.
  intros Hs Hne. rewrite tokens_no_space by done.
  unfold cons_word. destruct (String.eqb_spec s ""); congruence.
Qed.

Lemma elem_of_tokens_no_space (k s : string) :
  no_space s = true -> k ∈ tokens s -> k = s.
Proof.
  intros Hs. rewrite tokens_no_space by done. unfold cons_word.
  destruct (String.eqb s ""); [by intros ?%elem_of_nil|].
  by intros ->%list_elem_of_singleton.
Qed.

Lemma cons_word_app (w : string) (ws vs : list string) :
  cons_word w (ws ++ vs) = cons_word w ws ++ vs.
Proof. unfold cons_word. by destruct (String.eqb w ""). Qed.

Lemma split_go_space (a b : string) :
  split_go (a +:+ String " " b)
  = ((split_go a).1, (split_go a).2 ++ tokens b).
Proof.
  induction a as [|c a IH]; simpl.
  - unfold tokens. by destruct (split_go b).
  - rewrite IH. destruct (split_go a) as [w ws]; simpl.
    destruct (is_space c); [|done].
    by rewrite cons_word_app.
Qed.

Lemma tokens_space (a b : string) :
  tokens (a +:+ String " " b) = tokens a ++ tokens b.
Proof.
  unfold tokens at 1 2. rewrite split_go_space.
  destruct (split_go a) as [w ws]; simpl. apply cons_word_app.
Qed.

Lemma tokens_empty : tokens "" = [].
Proof. reflexivity. Qed.

Lemma elem_of_tokens_concat (k : string) (ps : list string) :
  k ∈ tokens (String.concat " " ps) <-> exists p, p ∈ ps /\ k ∈ tokens p.
Proof.
  induction ps as [|p ps IH].
  - simpl. rewrite tokens_empty. split; [by intros ?%elem_of_nil|].
    by intros (p & ?%elem_of_nil & _).
  - destruct ps as [|q ps].
    + simpl. split.
      * intros Hk. exists p. split; [by left|done].
      * by intros (p' & ->%list_elem_of_singleton & Hk).
    + change (String.concat " " (p :: q :: ps))
        with (p +:+ String " " (String.concat " " (q :: ps))).
      rewrite tokens_space, elem_of_app, IH. split.
      * intros [Hk|(p' & Hp' & Hk)].
        -- exists p. split; [by left|done].
        -- exists p'. split; [by right|done].
      * intros (p' & Hp' & Hk).
        apply elem_of_cons in Hp' as [->|Hp']; [by left|].
        right. by exists p'.
Qed.

(** ** Objects *)

Lemma obj_get_set_eq (k : string) (v : jsval) (o : jsobj) :
  obj_get k (obj_set k v o) = v.
Proof.
  induction o as [|[k' v'] o IH]; simpl.
  - by rewrite decide_True.
  - destruct (decide (k' = k)); simpl.
    + by rewrite decide_True.
    + by rewrite decide_False.
Qed.

Lemma obj_get_set_ne (k k' : string) (v : jsval) (o : jsobj) :
  k' <> k -> obj_get k (obj_set k' v o) = obj_get k o.
Proof.
  intros Hne. induction o as [|[k'' v''] o IH]; simpl.
  - by rewrite decide_False.
  - destruct (decide (k'' = k')) as [->|]; simpl.
    + by rewrite !decide_False.
    + destruct (decide (k'' = k)); [done|]. apply IH.
Qed.

Lemma obj_get_set (k k' : string) (v : jsval) (o : jsobj) :
  obj_get k (obj_set k' v o) = if decide (k' = k) then v else obj_get k o.
Proof.
  destruct (decide (k' = k)) as [->|].
  - apply obj_get_set_eq.
  - by apply obj_get_set_ne.
Qed.

Lemma obj_get_spread (k : string) (o src : jsobj) :
  obj_get k (obj_spread o src) = last_assigned k src (obj_get k o).
Proof.
  unfold obj_spread, last_assigned. revert o.
  induction src as [|[k' v'] src IH]; intros o; simpl; [done|].
  by rewrite IH, obj_get_set.
Qed.

Lemma obj_get_literal (k : string) (es : list (string * jsval)) :
  obj_get k (obj_literal es) = last_assigned k es JUndefined.
Proof. apply (obj_get_spread k [] es). Qed.

Lemma obj_set_keys (k : string) (v : jsval) (o : jsobj) (k' : string) :
  k' ∈ (obj_set k v o).*1 -> k' = k \/ k' ∈ o.*1.
Proof.
  induction o as [|[k'' v''] o IH]; simpl.
  - intros ->%list_elem_of_singleton. by left.
  - destruct (decide (k'' = k)) as [->|]; simpl.
    + intros [->|Hin]%elem_of_cons; [by left|]. right. by right.
    + intros [->|Hin]%elem_of_cons; [right; by left|].
      destruct (IH Hin); [by left|]. right. by right.
Qed.

Lemma obj_spread_keys (o src : jsobj) (k : string) :
  k ∈ (obj_spread o src).*1 -> k ∈ src.*1 \/ k ∈ o.*1.
Proof.
  unfold obj_spread. revert o.
  induction src as [|[k' v'] src IH]; intros o; simpl; [by right|].
  intros [Hin|Hin]%IH.
  - left. by right.
  - apply obj_set_keys in Hin as [->|Hin]; [left; by left|by right].
Qed.

Lemma obj_literal_keys (es : list (string * jsval)) (k : string) :
  k ∈ (obj_literal es).*1 -> k ∈ es.*1.
Proof. intros [?|?%elem_of_nil]%obj_spread_keys; done. Qed.

Lemma obj_set_NoDup (k : string) (v : jsval) (o : jsobj) :
  NoDup o.*1 -> NoDup (obj_set k v o).*1.
Proof.
  induction o as [|[k' v'] o IH]; simpl.
  - intros _. apply NoDup_singleton.
  - intros [Hk' Ho]%NoDup_cons.
    destruct (decide (k' = k)) as [->|Hne]; simpl.
    + by apply NoDup_cons.
    + apply NoDup_cons. split; [|by apply IH].
      intros [->|Hin]%obj_set_keys; done.
Qed.

Lemma obj_literal_NoDup (es : list (string * jsval)) : NoDup (obj_literal es).*1.
Proof.
  unfold obj_literal.
  assert (Hgen : forall o, NoDup o.*1 ->
    NoDup (fold_left (fun o kv => obj_set kv.1 kv.2 o) es o).*1).
  { induction es as [|[k v] es IH]; intros o Ho; simpl; [done|].
    apply IH. by apply obj_set_NoDup. }
  apply Hgen. apply NoDup_nil_2.
Qed.

Lemma truthy_keys_get (k : string) (o : jsobj) :
  truthy (obj_get k o) = true -> k ∈ truthy_keys o.
Proof.
  unfold truthy_keys.
  induction o as [|[k' v'] o IH]; [done|].
  rewrite filter_cons. cbn [obj_get snd].
  destruct (decide (k' = k)) as [->|Hne].
  - intros Hv. rewrite decide_True by done. by left.
  - intros Hv. destruct (decide _); cbn [fmap list_fmap]; [right|]; by apply IH.
Qed.

Lemma get_truthy_keys (k : string) (o : jsobj) :
  NoDup o.*1 -> k ∈ truthy_keys o -> truthy (obj_get k o) = true.
Proof.
  unfold truthy_keys.
  induction o as [|[k' v'] o IH]; [by intros _ ?%elem_of_nil|].
  rewrite fmap_cons. intros [Hk' Ho]%NoDup_cons.
  rewrite filter_cons. cbn [obj_get fst snd].
  destruct (decide (k' = k)) as [->|Hne].
  - destruct (decide (truthy v' = true)); [done|].
    intros Hin. exfalso. apply Hk'.
    apply list_elem_of_fmap in Hin as ([k2 v2] & -> & Hin).
    apply list_elem_of_filter in Hin as [_ Hin].
    apply list_elem_of_fmap. by exists (k2, v2).
  - destruct (decide (truthy v' = true)).
    + rewrite fmap_cons. intros [->|Hin]%elem_of_cons; [done|]. by apply IH.
    + by apply IH.
Qed.

(** ** [classNames] *)

(** A key whose value is truthy is a class of the result. *)
Lemma has_class_classNames_key (c : option string) (o : jsobj) (k : string) :
  no_space k = true -> k <> "" ->
  truthy (obj_get k o) = true ->
  has_class k (classNames c o).
Proof.
  intros Hk Hne Hv. unfold has_class, classNames.
  apply elem_of_tokens_concat. exists k. split.
  - unfold class_pieces. apply elem_of_app. right.
    by apply truthy_keys_get.
  - rewrite tokens_single by done. by left.
Qed.

Lemma last_assigned_rev (k : string) (es : list (string * jsval)) (d : jsval) :
  last_assigned k es d = first_assigned k (rev es) d.
Proof.
  unfold last_assigned. rewrite <- fold_left_rev_right.
  induction (rev es) as [|[k' v'] l IH]; simpl; [done|].
  by rewrite IH.
Qed.

Lemma first_assigned_eq (k : string) (v : jsval) es d :
  first_assigned k ((k, v) :: es) d = v.
Proof. simpl. by rewrite decide_True. Qed.

Lemma first_assigned_ne (k k' : string) (v : jsval) es d :
  k' <> k -> first_assigned k ((k', v) :: es) d = first_assigned k es d.
Proof. intros. simpl. by rewrite decide_False. Qed.

Lemma last_assigned_absent (k : string) (es : list (string * jsval)) (d : jsval) :
  k ∉ es.*1 -> last_assigned k es d = d.
Proof.
  unfold last_assigned. revert d.
  induction es as [|[k' v'] es IH]; intros d Hk; simpl; [done|].
  rewrite fmap_cons in Hk. apply not_elem_of_cons in Hk as [Hne Hk].
  rewrite decide_False by done. by apply IH.
Qed.

(** ** Render *)

Section RenderProperties.
Context `{Imports}.

Lemma cls_inj (a b : string) : cls a = cls b -> a = b.
Proof. apply append_inj_l. Qed.

Lemma cls_no_space (a : string) :
  no_space prefix = true -> no_space a = true -> no_space (cls a) = true.
Proof. intros Hp Ha. unfold cls. by rewrite no_space_append, Hp, Ha. Qed.

Lemma cls_nonempty (a : string) : a <> "" -> cls a <> "".
Proof. apply append_nonempty_r. Qed.

Ltac key_neq :=
  let Heq := fresh in
  intros Heq; apply cls_inj in Heq; simplify_eq/=.

(** Reads [obj_get k (buttonClassMap p st)] for a key [k = cls _],
    once the position and alignment props are case-split. *)
Ltac read_class_map :=
  unfold buttonClassMap; rewrite obj_get_literal, last_assigned_rev;
  cbn [rev app];
  repeat (rewrite first_assigned_ne by key_neq);
  first [rewrite first_assigned_eq | cbn [first_assigned]].

Lemma class_map_visible (p : Props) (st : HookState) :
  obj_get (cls "--tooltip--visible") (buttonClassMap p st) = JBool (isHovered st).
Proof.
  destruct p as [? ? ? ? ? ? ? ? ? ? ? ? ? ? [[]|] [[]|] ?]; by read_class_map.
Qed.

Lemma class_map_selected (p : Props) (st : HookState) :
  obj_get (cls "--btn--selected") (buttonClassMap p st)
  = js_and (js_and (js_opt JBool (hasIconOnly p)) (js_opt JBool (isSelected p)))
           (strict_eq (js_opt JStr (kind p)) (JStr "ghost")).
Proof.
  destruct p as [? ? ? ? ? ? ? ? ? ? ? ? ? ? [[]|] [[]|] ?]; by read_class_map.
Qed.

Lemma class_map_hidden (p : Props) (st : HookState) :
  obj_get (cls "--tooltip--hidden") (buttonClassMap p st)
  = js_and (js_opt JBool (hasIconOnly p))
           (js_not (JBool (allowTooltipVisibility st))).
Proof.
  destruct p as [? ? ? ? ? ? ? ? ? ? ? ? ? ? [[]|] [[]|] ?]; by read_class_map.
Qed.

Lemma class_map_a11y (p : Props) (st : HookState) :
  obj_get (cls "--tooltip--a11y") (buttonClassMap p st) = js_opt JBool (hasIconOnly p).
Proof.
  destruct p as [? ? ? ? ? ? ? ? ? ? ? ? ? ? [[]|] [[]|] ?]; by read_class_map.
Qed.

Lemma class_map_position (p : Props) (st : HookState) (x : TooltipPosition) :
  truthy (obj_get (cls ("--tooltip--" +:+ position_name x)) (buttonClassMap p st)) = true ->
  hasIconOnly p = Some true.
Proof.
  destruct p as [? ? ? ? ? ? ? ? ? ? ? ? ? [[]|] [[]|] [[]|] ?]; destruct x;
    read_class_map; done.
Qed.

Lemma class_map_alignment (p : Props) (st : HookState) (x : TooltipAlignment) :
  truthy (obj_get (cls ("--tooltip--align-" +:+ alignment_name x)) (buttonClassMap p st)) = true ->
  hasIconOnly p = Some true.
Proof.
  destruct p as [? ? ? ? ? ? ? ? ? ? ? ? ? [[]|] [[]|] [[]|] ?]; destruct x;
    read_class_map; done.
Qed.

Lemma class_map_keys_no_space (p : Props) (st : HookState) :
  no_space prefix = true ->
  no_space (default "" (kind p)) = true ->
  forall k, k ∈ (buttonClassMap p st).*1 -> no_space k = true.
Proof.
  intros Hp Hk k Hin. unfold buttonClassMap in Hin.
  apply obj_literal_keys in Hin. cbn [fmap list_fmap fst] in Hin.
  assert (Hkind : no_space (template id (kind p)) = true).
  { destruct (kind p); [exact Hk|reflexivity]. }
  repeat (apply elem_of_cons in Hin as [->|Hin]);
    [apply cls_no_space; [exact Hp|]..|by apply elem_of_nil in Hin];
    try reflexivity.
  - rewrite no_space_append. by rewrite Hkind.
  - by destruct (tooltipPosition p) as [[]|].
  - by destruct (tooltipAlignment p) as [[]|].
Qed.

(** A class of [buttonClasses] is the caller's or a key of the map whose
    value is truthy. *)
Lemma buttonClasses_inv (p : Props) (st : HookState) (k : string) :
  no_space prefix = true ->
  no_space (default "" (kind p)) = true ->
  has_class k (buttonClasses p st) ->
  has_class k (default "" (className p))
  \/ truthy (obj_get k (buttonClassMap p st)) = true.
Proof.
  intros Hp Hk. unfold buttonClasses, has_class, classNames.
  intros (piece & Hpiece & Hin)%elem_of_tokens_concat.
  unfold class_pieces in Hpiece. apply elem_of_app in Hpiece as [Hc|Hkey].
  - left. destruct (className p) as [s|]; [|by apply elem_of_nil in Hc].
    destruct (truthy (JStr s)); [|by apply elem_of_nil in Hc].
    by apply list_elem_of_singleton in Hc as ->.
  - right.
    assert (Hsp : no_space piece = true).
    { apply (class_map_keys_no_space p st Hp Hk).
      unfold truthy_keys in Hkey.
      apply list_elem_of_fmap in Hkey as (kv & -> & Hkv).
      apply list_elem_of_filter in Hkv as [_ Hkv].
      apply list_elem_of_fmap. by exists kv. }
    apply elem_of_tokens_no_space in Hin as ->; [|done].
    apply get_truthy_keys; [apply obj_literal_NoDup|done].
Qed.

Lemma host_Button (p : Props) (ref : jsval) (st : HookState) :
  host (Button p ref st)
  = Some (if type_truthy (as_ p) then default (HostTag "button") (as_ p)
          else if truthy (js_and (js_opt JStr (href p))
                                 (js_not (js_opt JBool (disabled p))))
               then HostTag "a" else HostTag "button").
Proof.
  unfold Button.
  destruct (type_truthy (as_ p)); [done|].
  by destruct (truthy (js_and _ _)).
Qed.

Lemma class_attr_Button (p : Props) (ref : jsval) (st : HookState) :
  class_attr (Button p ref st) = buttonClasses p st.
Proof.
  unfold Button, class_attr, attr.
  destruct (type_truthy (as_ p));
    [|destruct (truthy (js_and (js_opt JStr (href p)) _))];
    rewrite !obj_get_spread, ?obj_get_literal; reflexivity.
Qed.

(** C3. With no host override, a disabled button that was given an href
    is rendered as a native button, and the host is an anchor exactly
    when the href is truthy and [disabled] is not. *)
Theorem disabled_href_renders_button (p : Props) (ref : jsval) (st : HookState) :
  type_truthy (as_ p) = false ->
  (disabled p = Some true -> host (Button p ref st) = Some (HostTag "button"))
  /\ (host (Button p ref st) = Some (HostTag "a")
      <-> truthy (js_opt JStr (href p)) = true
          /\ truthy (js_opt JBool (disabled p)) = false).
Proof.
  intros Has. rewrite host_Button, Has. split.
  - intros ->. unfold js_and, js_not.
    destruct (truthy (js_opt JStr (href p))) eqn:Ehref;
      cbn [js_opt truthy negb]; by rewrite ?Ehref.
  - unfold js_and, js_not.
    destruct (truthy (js_opt JStr (href p))) eqn:Ehref;
      [destruct (truthy (js_opt JBool (disabled p))) eqn:Edis|];
      cbn [truthy negb]; rewrite ?Ehref; split; try done; intros [? ?]; done.
Qed.

(** The [aria-pressed] of the rendered element on each host: what the
    component computes under a host override and on the native button,
    whatever the caller passed; on the anchor the last [aria-pressed] of
    the rest props, if any. *)
Lemma aria_pressed_host (p : Props) (ref : jsval) (st : HookState) :
  attr "aria-pressed" (Button p ref st)
  = if type_truthy (as_ p) || negb (truthy (js_and (js_opt JStr (href p))
                                    (js_not (js_opt JBool (disabled p)))))
    then (if truthy (js_and (js_opt JBool (hasIconOnly p))
                            (strict_eq (js_opt JStr (kind p)) (JStr "ghost")))
          then js_opt JBool (isSelected p) else JNull)
    else last_assigned "aria-pressed" (other p) JUndefined.
Proof.
  unfold Button, attr.
  destruct (type_truthy (as_ p));
    [|destruct (truthy (js_and (js_opt JStr (href p)) _))];
    rewrite !obj_get_spread, ?obj_get_literal; reflexivity.
Qed.

(** A token of the caller's [className] is a token of the class string. *)
Lemma has_class_classNames_className (c : option string) (o : jsobj) (k : string) :
  has_class k (default "" c) -> has_class k (classNames c o).
Proof.
  unfold has_class, classNames. destruct c as [s|]; cbn [default from_option id].
  - intros Hk. apply elem_of_tokens_concat. exists s. split; [|done].
    unfold class_pieces. apply elem_of_app. left.
    destruct (truthy (JStr s)) eqn:Hs; [by left|].
    cbn in Hs. destruct (String.eqb_spec s "") as [->|]; [|done].
    rewrite tokens_empty in Hk. by apply elem_of_nil in Hk.
  - rewrite tokens_empty. by intros ?%elem_of_nil.
Qed.

(** C8. The configuration [{kind: "ghost", hasIconOnly: true,
    isSelected: true}] renders a native button with the selected class
    and [aria-pressed] true.  For a configuration [p] in which icon-only
    and kind ghost do not both hold, the component itself adds neither:
    the class attribute has the selected token exactly when the caller's
    [className] has it; under a host override and on the native button
    [aria-pressed] is null, whatever the caller passed; on the anchor it
    is the last [aria-pressed] of the rest props, so nothing is written
    when the caller passed none. *)
Theorem selected_only_for_ghost_icon_only (p : Props) (ref : jsval) (st : HookState) :
  no_space prefix = true ->
  ~ (hasIconOnly p = Some true /\ kind p = Some "ghost") ->
  no_space (default "" (kind p)) = true ->
  (host (Button (defaultProps ghost_selected) ref st) = Some (HostTag "button")
   /\ has_class (cls "--btn--selected")
                (class_attr (Button (defaultProps ghost_selected) ref st))
   /\ attr "aria-pressed" (Button (defaultProps ghost_selected) ref st) = JBool true)
  /\ (has_class (cls "--btn--selected") (class_attr (Button p ref st))
      <-> has_class (cls "--btn--selected") (default "" (className p)))
  /\ (type_truthy (as_ p) = true
      \/ truthy (js_and (js_opt JStr (href p))
                        (js_not (js_opt JBool (disabled p)))) = false ->
      attr "aria-pressed" (Button p ref st) = JNull)
  /\ (type_truthy (as_ p) = false ->
      truthy (js_and (js_opt JStr (href p))
                     (js_not (js_opt JBool (disabled p)))) = true ->
      attr "aria-pressed" (Button p ref st)
      = last_assigned "aria-pressed" (other p) JUndefined)
  /\ ("aria-pressed" ∉ (other p).*1 ->
      ~ emitted (attr "aria-pressed" (Button p ref st))).
Proof.
  intros Hp Hnot Hkind. split.
  - split; [by rewrite host_Button|]. split.
    + rewrite class_attr_Button. apply has_class_classNames_key.
      * by apply cls_no_space.
      * by apply cls_nonempty.
      * by rewrite class_map_selected.
    + by rewrite aria_pressed_host.
  - assert (Hgate : truthy (js_and (js_opt JBool (hasIconOnly p))
                       (strict_eq (js_opt JStr (kind p)) (JStr "ghost"))) = false).
    { unfold js_and, strict_eq.
      destruct (hasIconOnly p) as [[]|]; cbn [js_opt truthy]; try done.
      apply bool_decide_eq_false. intros Heq. apply Hnot. split; [done|].
      destruct (kind p); simplify_eq/=; done. }
    split; [|split; [|split]].
    + rewrite class_attr_Button. split.
      * intros [Hin|Hin]%buttonClasses_inv; [done|..|done|done].
        rewrite class_map_selected in Hin.
        unfold js_and, strict_eq in Hgate, Hin.
        destruct (hasIconOnly p) as [[]|]; cbn [js_opt truthy] in Hgate, Hin;
          try done.
        destruct (isSelected p) as [[]|]; cbn [js_opt truthy] in Hin; try done.
        congruence.
      * apply has_class_classNames_className.
    + rewrite aria_pressed_host, Hgate. by intros [->| ->]; [|rewrite orb_true_r].
    + intros Has Hanchor. by rewrite aria_pressed_host, Has, Hanchor.
    + intros Hother. rewrite aria_pressed_host, Hgate.
      rewrite last_assigned_absent by done.
      unfold emitted. destruct (_ || _); tauto.
Qed.

(** C9. A configuration with an icon renderer and neither truthy
    children nor a truthy icon description gets the validator's error;
    one with an icon renderer and either of them gets none. *)
Theorem iconDescription_validator (p : Props) (icon : string) :
  renderIcon p = Some icon ->
  (node_truthy (children p) = false ->
   truthy (js_opt JStr (iconDescription p)) = false ->
   propTypes_iconDescription p
   = Some "renderIcon property specified without also providing an iconDescription property.")
  /\ (node_truthy (children p) = true
      \/ truthy (js_opt JStr (iconDescription p)) = true ->
      propTypes_iconDescription p = None).
Proof.
  intros Hicon. unfold propTypes_iconDescription. rewrite Hicon.
  cbn [js_opt truthy andb]. split.
  - by intros -> ->.
  - intros [->| ->]; [done|]. by destruct (node_truthy (children p)).
Qed.

(** The hidden, position and alignment tokens are there only for an
    icon-only button, or when the caller's [className] has them. *)
Lemma tooltip_tokens_need_icon_only (p : Props) (ref : jsval) (st : HookState) (k : string) :
  no_space prefix = true ->
  hasIconOnly p <> Some true ->
  no_space (default "" (kind p)) = true ->
  k = cls "--tooltip--hidden"
  \/ (exists x, k = cls ("--tooltip--" +:+ position_name x))
  \/ (exists x, k = cls ("--tooltip--align-" +:+ alignment_name x)) ->
  has_class k (class_attr (Button p ref st)) ->
  has_class k (default "" (className p)).
Proof.
  intros Hp Hicon Hkind Hk. rewrite class_attr_Button.
  intros [Hin|Hin]%buttonClasses_inv; [done|..|done|done].
  exfalso. apply Hicon.
  destruct Hk as [->|[[x ->]|[x ->]]].
  - rewrite class_map_hidden in Hin. unfold js_and in Hin.
    by destruct (hasIconOnly p) as [[]|].
  - by apply class_map_position in Hin.
  - by apply class_map_alignment in Hin.
Qed.

(** C10. Whatever the configuration, icon-only or not, the class
    attribute of the rendered element has the tooltip-visible token when
    [isHovered] is true. *)
Theorem tooltip_visible_ignores_icon_only (p : Props) (ref : jsval) (st : HookState) :
  no_space prefix = true ->
  isHovered st = true ->
  has_class (cls "--tooltip--visible") (class_attr (Button p ref st)).
Proof.
  intros Hp Hhov. rewrite class_attr_Button. apply has_class_classNames_key.
  - by apply cls_no_space.
  - by apply cls_nonempty.
  - by rewrite class_map_visible, Hhov.
Qed.

(** An icon-only button matches the selector of the close step. *)
Lemma icon_only_matches_selector (p : Props) (ref : jsval) (st : HookState) :
  no_space prefix = true ->
  hasIconOnly p = Some true ->
  has_class (cls "--tooltip--a11y") (class_attr (Button p ref st)).
Proof.
  intros Hp Hicon. rewrite class_attr_Button. apply has_class_classNames_key.
  - by apply cls_no_space.
  - by apply cls_nonempty.
  - by rewrite class_map_a11y, Hicon.
Qed.

(** ** More of the render: the other class tokens *)

(** With no [className] from the caller, a token [cls s] is in the class
    attribute exactly when the component's own map gives it a truthy
    value. *)
Lemma has_own_class (p : Props) (ref : jsval) (st : HookState) (s : string) :
  no_space prefix = true ->
  no_space (default "" (kind p)) = true ->
  className p = None ->
  no_space s = true -> s <> "" ->
  has_class (cls s) (class_attr (Button p ref st))
  <-> truthy (obj_get (cls s) (buttonClassMap p st)) = true.
Proof.
  intros Hp Hkind Hcls Hs Hne. rewrite class_attr_Button. split.
  - intros [Hin|Hin]%buttonClasses_inv; [|done..].
    rewrite Hcls in Hin. by apply elem_of_nil in Hin.
  - intros Hv. apply has_class_classNames_key; [by apply cls_no_space| |done].
    by apply cls_nonempty.
Qed.

Ltac key_neq_kind :=
  let Heq := fresh in
  intros Heq; apply cls_inj in Heq; cbv [String.append] in Heq;
  simplify_eq/=; congruence.

Ltac read_class_map_kind :=
  unfold buttonClassMap; rewrite obj_get_literal, last_assigned_rev;
  cbn [rev app];
  repeat (rewrite first_assigned_ne by key_neq_kind);
  first [rewrite first_assigned_eq | cbn [first_assigned]].

(** The size tokens.  [field], [lg] and [xl] follow [size]; [sm] follows
    [size] being [small] or [sm], or the deprecated [small] flag, whatever
    [size] says. *)
Theorem size_tokens (p : Props) (ref : jsval) (st : HookState) :
  no_space prefix = true ->
  no_space (default "" (kind p)) = true ->
  className p = None ->
  kind p <> Some "field" -> kind p <> Some "sm" ->
  kind p <> Some "lg" -> kind p <> Some "xl" ->
  (has_class (cls "--btn--field") (class_attr (Button p ref st))
   <-> size p = Some SizeField)
  /\ (has_class (cls "--btn--sm") (class_attr (Button p ref st))
      <-> size p = Some SizeSmall \/ size p = Some SizeSm \/ small p = Some true)
  /\ (has_class (cls "--btn--lg") (class_attr (Button p ref st))
      <-> size p = Some SizeLg)
  /\ (has_class (cls "--btn--xl") (class_attr (Button p ref st))
      <-> size p = Some SizeXl).
Proof.
  intros Hp Hkind Hcls Hfield Hsm Hlg Hxl.
  rewrite !has_own_class by done.
  destruct p as [? ? ? ? sml sz [k|] ? ? ? ? ? ? ? [[]|] [[]|] ?];
    cbn [size small kind] in *;
    (split; [|split; [|split]]; read_class_map_kind;
     destruct sz as [[]|]; destruct sml as [[]|]; vm_compute; intuition congruence).
Qed.

(** The base token is always there; the kind token is there for every kind
    that is a single token and none of the three names a later key of the
    map takes; the disabled token follows [disabled]. *)
Theorem variant_tokens (p : Props) (ref : jsval) (st : HookState) (k : string) :
  no_space prefix = true ->
  kind p = Some k -> no_space k = true -> k <> "" ->
  k <> "disabled" -> k <> "selected" -> k <> "icon-only" ->
  has_class (cls "--btn") (class_attr (Button p ref st))
  /\ has_class (cls ("--btn--" +:+ k)) (class_attr (Button p ref st))
  /\ (className p = None ->
      (has_class (cls "--btn--disabled") (class_attr (Button p ref st))
       <-> disabled p = Some true)).
Proof.
  intros Hp Hk Hsp Hne Hd Hs Hi. rewrite class_attr_Button.
  split; [|split].
  - apply has_class_classNames_key; [by apply cls_no_space|by apply cls_nonempty|].
    destruct p as [? ? ? ? ? ? [?|] ? ? ? ? ? ? ? [[]|] [[]|] ?];
      by read_class_map_kind.
  - apply has_class_classNames_key.
    + apply cls_no_space; [done|]. by rewrite no_space_append, Hsp.
    + by apply cls_nonempty.
    + destruct p as [? ? ? ? ? ? ? ? ? ? ? ? ? ? [[]|] [[]|] ?];
        cbn [kind] in Hk; subst; read_class_map_kind; cbn;
        by destruct k.
  - intros Hcls. rewrite <- class_attr_Button with (ref := ref).
    rewrite has_own_class; [|done|by rewrite Hk|done..].
    destruct p as [? ? ? dis ? ? ? ? ? ? ? ? ? ? [[]|] [[]|] ?];
      cbn [kind disabled] in *; subst; read_class_map_kind;
      destruct dis as [[]|]; vm_compute; intuition congruence.
Qed.

(** An icon-only button has the icon-only, trigger and selector tokens,
    and the tokens of its tooltip position and alignment. *)
Theorem icon_only_tokens (p : Props) (ref : jsval) (st : HookState)
    (pos : TooltipPosition) (al : TooltipAlignment) :
  no_space prefix = true ->
  hasIconOnly p = Some true ->
  tooltipPosition p = Some pos ->
  tooltipAlignment p = Some al ->
  Forall (fun s => has_class (cls s) (class_attr (Button p ref st)))
    [ "--btn--icon-only"; "--tooltip__trigger"; "--tooltip--a11y";
      "--tooltip--" +:+ position_name pos;
      "--tooltip--align-" +:+ alignment_name al ].
Proof.
  intros Hp Hicon Hpos Hal. rewrite class_attr_Button.
  repeat constructor;
    (apply has_class_classNames_key;
     [ apply cls_no_space; [done|by destruct pos, al]
     | by apply cls_nonempty; destruct pos, al
     | destruct p as [? ? ? ? ? ? ? ? ? ? ? ? ? ? ? ? ?];
       cbn [hasIconOnly tooltipPosition tooltipAlignment] in *; subst;
       destruct pos, al; by read_class_map ]).
Qed.

(** The two tokens that follow the hook state: the hidden token is there
    exactly for an icon-only button whose tooltip is not allowed, the
    visible token exactly when [isHovered] is true. *)
Theorem tooltip_state_tokens (p : Props) (ref : jsval) (st : HookState) :
  no_space prefix = true ->
  no_space (default "" (kind p)) = true ->
  className p = None ->
  (has_class (cls "--tooltip--hidden") (class_attr (Button p ref st))
   <-> hasIconOnly p = Some true /\ allowTooltipVisibility st = false)
  /\ (has_class (cls "--tooltip--visible") (class_attr (Button p ref st))
      <-> isHovered st = true).
Proof.
  intros Hp Hkind Hcls. rewrite !has_own_class by done.
  rewrite class_map_hidden, class_map_visible. split.
  - unfold js_and, js_not.
    destruct (hasIconOnly p) as [[]|], (allowTooltipVisibility st); vm_compute; intuition congruence.
  - done.
Qed.

(** ** More of the render: hosts and attributes *)

Lemma last_assigned_NoDup (k : string) (es : list (string * jsval)) (d : jsval) :
  NoDup es.*1 -> k ∈ es.*1 -> last_assigned k es d = obj_get k es.
Proof.
  unfold last_assigned. revert d.
  induction es as [|[k' v'] es IH]; intros d Hnd Hin; [by apply elem_of_nil in Hin|].
  rewrite fmap_cons in Hnd, Hin. apply NoDup_cons in Hnd as [Hk' Hnd].
  cbn [fold_left obj_get fst snd].
  destruct (decide (k' = k)) as [->|Hne].
  - by apply (last_assigned_absent k es v').
  - apply elem_of_cons in Hin as [Heq|Hin]; [by cbn in Heq|]. by apply IH.
Qed.

(** With an [as] override the host is the override, and the element gets
    the button attributes and the href together, whatever the rest props
    hold and even when the button is disabled. *)
Theorem as_override_merges_href (p : Props) (ref : jsval) (st : HookState)
    (ty : ElementType) :
  as_ p = Some ty ->
  type_truthy (Some ty) = true ->
  host (Button p ref st) = Some ty
  /\ attr "href" (Button p ref st) = js_opt JStr (href p)
  /\ attr "disabled" (Button p ref st) = js_opt JBool (disabled p)
  /\ attr "type" (Button p ref st) = js_opt (fun t => JStr (type_name t)) (type_ p).
Proof.
  intros Has Hty. rewrite host_Button. unfold Button, attr. rewrite Has, Hty.
  split; [done|].
  repeat split; rewrite !obj_get_spread, ?obj_get_literal; reflexivity.
Qed.

(** On the anchor host the element has the href and none of the button
    attributes: no [disabled], no [type], and no [aria-pressed] even for a
    selected ghost icon-only button, which still has the selected class. *)
Theorem anchor_drops_button_attributes (p : Props) (ref : jsval) (st : HookState)
    (h : string) :
  no_space prefix = true ->
  type_truthy (as_ p) = false ->
  href p = Some h -> h <> "" ->
  truthy (js_opt JBool (disabled p)) = false ->
  "disabled" ∉ (other p).*1 -> "type" ∉ (other p).*1 ->
  "aria-pressed" ∉ (other p).*1 ->
  host (Button p ref st) = Some (HostTag "a")
  /\ attr "href" (Button p ref st) = JStr h
  /\ attr "disabled" (Button p ref st) = JUndefined
  /\ attr "type" (Button p ref st) = JUndefined
  /\ attr "aria-pressed" (Button p ref st) = JUndefined
  /\ (hasIconOnly p = Some true -> isSelected p = Some true ->
      kind p = Some "ghost" ->
      has_class (cls "--btn--selected") (class_attr (Button p ref st))).
Proof.
  intros Hp Has Hhref Hne Hdis Hod Hot Hoa.
  assert (Hgate : truthy (js_and (js_opt JStr (href p))
                            (js_not (js_opt JBool (disabled p)))) = true).
  { rewrite Hhref. unfold js_and, js_not. cbn [js_opt truthy].
    destruct (String.eqb_spec h ""); [done|]. cbn. by rewrite Hdis. }
  split; [by rewrite host_Button, Has, Hgate|].
  split; [|split; [|split; [|split]]].
  1-4: unfold Button, attr; rewrite Has, Hgate;
       rewrite !obj_get_spread, ?obj_get_literal;
       rewrite ?(last_assigned_absent _ (other p)) by done;
       by rewrite ?Hhref.
  intros Hicon Hsel Hkind. rewrite class_attr_Button.
  apply has_class_classNames_key; [by apply cls_no_space|by apply cls_nonempty|].
  by rewrite class_map_selected, Hicon, Hsel, Hkind.
Qed.

(** On the default host (no override, and no href or disabled) the element
    is a native button with the [disabled], [type] and [aria-pressed] the
    component computes, whatever the rest props hold under these names,
    and it has no href: a disabled button that was given an href does not
    carry it. *)
Theorem button_host_attributes (p : Props) (ref : jsval) (st : HookState) :
  type_truthy (as_ p) = false ->
  href p = None \/ href p = Some "" \/ disabled p = Some true ->
  "href" ∉ (other p).*1 ->
  host (Button p ref st) = Some (HostTag "button")
  /\ attr "disabled" (Button p ref st) = js_opt JBool (disabled p)
  /\ attr "type" (Button p ref st) = js_opt (fun t => JStr (type_name t)) (type_ p)
  /\ attr "aria-pressed" (Button p ref st)
     = (if truthy (js_and (js_opt JBool (hasIconOnly p))
                          (strict_eq (js_opt JStr (kind p)) (JStr "ghost")))
        then js_opt JBool (isSelected p) else JNull)
  /\ attr "href" (Button p ref st) = JUndefined.
Proof.
  intros Has Hcase Hoh.
  assert (Hgate : truthy (js_and (js_opt JStr (href p))
                            (js_not (js_opt JBool (disabled p)))) = false).
  { unfold js_and, js_not. destruct Hcase as [->|[->| ->]]; [done..|].
    destruct (href p) as [h|]; [|done]. cbn [js_opt].
    by destruct (truthy (JStr h)) eqn:E. }
  split; [by rewrite host_Button, Has, Hgate|].
  repeat split; unfold Button, attr; rewrite Has, Hgate;
    rewrite !obj_get_spread, ?obj_get_literal;
    rewrite ?(last_assigned_absent _ (other p)) by done; reflexivity.
Qed.

(** On every host, the rest props cannot override [tabIndex], [className]
    or [ref], and a rest prop under any other name than those the
    component sets reaches the element unchanged. *)
Theorem rest_props_pass_through (p : Props) (ref : jsval) (st : HookState) (k : string) :
  NoDup (other p).*1 ->
  k ∈ (other p).*1 ->
  k ∉ [ "onMouseEnter"; "onMouseLeave"; "onFocus"; "onBlur";
        "tabIndex"; "className"; "ref";
        "disabled"; "type"; "aria-pressed"; "href" ] ->
  attr "tabIndex" (Button p ref st) = js_opt JNum (tabIndex p)
  /\ attr "className" (Button p ref st) = JStr (buttonClasses p st)
  /\ attr "ref" (Button p ref st) = ref
  /\ attr k (Button p ref st) = obj_get k (other p).
Proof.
  intros Hnd Hin Hk.
  repeat (apply not_elem_of_cons in Hk as [? Hk]).
  unfold Button, attr.
  destruct (type_truthy (as_ p));
    [|destruct (truthy (js_and (js_opt JStr (href p)) _))];
    (split; [|split; [|split]];
     rewrite !obj_get_spread, ?obj_get_literal; [reflexivity..|];
     rewrite (last_assigned_NoDup k (other p)) by done;
     rewrite !last_assigned_absent; [done|..]; vm_compute fmap;
     by repeat (apply not_elem_of_cons; split; [done|])).
Qed.

(** Validation and render together: a configuration with an icon and no
    children that passes the [iconDescription] validator renders the icon
    with a non-empty [aria-label], hidden from assistive technology. *)
Theorem validated_icon_has_label (p : Props) (icon : string) :
  renderIcon p = Some icon ->
  node_truthy (children p) = false ->
  propTypes_iconDescription p = None ->
  exists d, d <> ""
    /\ iconDescription p = Some d
    /\ host (buttonImage p) = Some (Component icon)
    /\ attr "aria-label" (buttonImage p) = JStr d
    /\ attr "aria-hidden" (buttonImage p) = JStr "true".
Proof.
  intros Hicon Hch. unfold propTypes_iconDescription, buttonImage.
  rewrite Hicon, Hch. cbn [js_opt truthy andb negb].
  destruct (iconDescription p) as [d|]; cbn [js_opt truthy]; [|done].
  destruct (String.eqb_spec d ""); cbn; [done|]. intros _.
  exists d. by repeat split.
Qed.

(** ** More of the render: the children and the defaults *)

(** The element has three children, in this order: the tooltip text, the
    caller's children, the icon.  The tooltip text is rendered exactly
    when the element carries the selector class of the close step; it is
    then a [div] with the assistive-text class that holds the icon
    description and is what [tooltipRef] points to. *)
Theorem tooltip_body_iff_selector_class (p : Props) (ref : jsval) (st : HookState) :
  no_space prefix = true ->
  no_space (default "" (kind p)) = true ->
  className p = None ->
  rendered_children (Button p ref st) = [assistiveText p; children p; buttonImage p]
  /\ (assistiveText p <> RNull
      <-> has_class (cls "--tooltip--a11y") (class_attr (Button p ref st)))
  /\ (assistiveText p <> RNull ->
      host (assistiveText p) = Some (HostTag "div")
      /\ attr "ref" (assistiveText p) = JRef "tooltipRef"
      /\ class_attr (assistiveText p) = cls "--assistive-text"
      /\ rendered_children (assistiveText p)
         = [match iconDescription p with Some d => RText d | None => RNull end]).
Proof.
  intros Hp Hkind Hcls. split; [|split].
  - unfold Button. by destruct (type_truthy (as_ p));
      [|destruct (truthy (js_and (js_opt JStr (href p)) _))].
  - rewrite has_own_class by done. rewrite class_map_a11y.
    unfold assistiveText. by destruct (truthy (js_opt JBool (hasIconOnly p))).
  - unfold assistiveText. destruct (truthy (js_opt JBool (hasIconOnly p))); [|done].
    intros _. by repeat split.
Qed.

(** [Button.defaultProps] reach the element: with no override and no
    href, a configuration that leaves them out renders a native button
    with [tabIndex] 0, [type] button and [disabled] false and the
    primary token, and an icon-only one gets the top and center tokens
    of the tooltip. *)
Theorem defaults_reach_the_element (p : Props) (ref : jsval) (st : HookState) :
  no_space prefix = true ->
  type_truthy (as_ p) = false ->
  href p = None ->
  host (Button (defaultProps p) ref st) = Some (HostTag "button")
  /\ attr "tabIndex" (Button (defaultProps p) ref st) = JNum (default 0%Z (tabIndex p))
  /\ attr "type" (Button (defaultProps p) ref st)
     = JStr (type_name (default TypeButton (type_ p)))
  /\ attr "disabled" (Button (defaultProps p) ref st) = JBool (default false (disabled p))
  /\ (kind p = None ->
      has_class (cls "--btn--primary") (class_attr (Button (defaultProps p) ref st)))
  /\ (hasIconOnly p = Some true ->
      (tooltipPosition p = None ->
       has_class (cls "--tooltip--top") (class_attr (Button (defaultProps p) ref st)))
      /\ (tooltipAlignment p = None ->
          has_class (cls "--tooltip--align-center")
            (class_attr (Button (defaultProps p) ref st)))).
Proof.
  intros Hp Has Hhref.
  assert (Hgate : truthy (js_and (js_opt JStr (href (defaultProps p)))
                            (js_not (js_opt JBool (disabled (defaultProps p))))) = false).
  { cbn [defaultProps href]. by rewrite Hhref. }
  split; [by rewrite host_Button; cbn [defaultProps as_]; rewrite Has, Hgate|].
  split; [|split; [|split; [|split]]].
  1-3: unfold Button, attr; rewrite Hgate; cbn [defaultProps as_]; rewrite Has;
       rewrite !obj_get_spread, ?obj_get_literal;
       cbn [defaultProps tabIndex type_ disabled];
       by destruct (tabIndex p), (type_ p), (disabled p).
  - intros Hk. rewrite class_attr_Button.
    apply has_class_classNames_key; [by apply cls_no_space|by apply cls_nonempty|].
    destruct p as [? ? ? ? ? ? ? ? ? ? ? ? ? ? [[]|] [[]|] ?];
      cbn [kind] in Hk; subst; cbn [defaultProps or_default]; by read_class_map_kind.
  - intros Hicon. split; intros Hnone; rewrite class_attr_Button;
      (apply has_class_classNames_key; [by apply cls_no_space|by apply cls_nonempty|]);
      destruct p as [? ? ? ? ? ? ? ? ? ? ? ? ? ? [[]|] [[]|] ?];
      cbn [hasIconOnly tooltipPosition tooltipAlignment] in *; subst; try done;
      cbn [defaultProps or_default]; by read_class_map.
Qed.

End RenderProperties.

(** ** The state monad *)

Lemma exec_bind {A B} (m : M A) (k : A -> M B) (w : World) :
  exec (bind m k) w = exec (k (m w).1) (m w).2.
Proof. unfold exec, bind. by destruct (m w). Qed.

Lemma exec_seq {B} (m : M unit) (k : M B) (w : World) :
  exec (bind m (fun _ => k)) w = exec k (exec m w).
Proof. apply exec_bind. Qed.

Lemma exec_with_instance (i : nat) (k : Instance -> M unit) (w : World) (x : Instance) :
  fibers w !! i = Some x -> exec (with_instance i k) w = exec (k x) w.
Proof. intros Hi. unfold exec, with_instance. by rewrite Hi. Qed.

Lemma exec_with_instance_None (i : nat) (k : Instance -> M unit) (w : World) :
  fibers w !! i = None -> exec (with_instance i k) w = w.
Proof. intros Hi. unfold exec, with_instance. by rewrite Hi. Qed.

(** ** The close step *)

Section HandlerProperties.
Context `{Imports}.

Lemma for_each_toggle (name : string) (f : nat -> bool) (ns : list nat) (w : World) :
  exec (for_each ns (fun n => toggleClass n name (f n))) w
  = {| clock := clock w;
       page := fold_left (fun pg n => toggle_page n name (f n) pg) ns (page w);
       keydown := keydown w; pending := pending w; next_timer := next_timer w;
       fibers := fibers w; next_fiber := next_fiber w;
       trace := trace w ++ map (fun n => DidToggleClass n name (f n)) ns |}.
Proof.
  revert w. induction ns as [|n ns IH]; intros w.
  - destruct w. cbn. by rewrite app_nil_r.
  - cbn [for_each]. rewrite exec_seq, IH. cbn. by rewrite <- app_assoc.
Qed.

Lemma closeTooltips_exec (evt : SyntheticEvent) (w : World) :
  exec (closeTooltips evt) w
  = {| clock := clock w;
       page := closed_page (currentTarget evt) (page w);
       keydown := keydown w; pending := pending w; next_timer := next_timer w;
       fibers := fibers w; next_fiber := next_fiber w;
       trace := trace w ++ close_actions (currentTarget evt) (page w) |}.
Proof.
  unfold closeTooltips. rewrite exec_bind. cbn [querySelectorAll fst snd].
  by rewrite for_each_toggle.
Qed.




(** ** Focus *)

Lemma handleFocus_exec (i : nat) (x : Instance) (evt : SyntheticEvent) (w : World) :
  fibers w !! i = Some x ->
  exec (handleFocus i evt) w
  = exec (setAllowTooltipVisibility i true)
      (exec (setIsFocused i true)
         (exec (setIsHovered i (negb (isHovered (hooks x))))
            (exec (closeTooltips evt) w))).
Proof.
  intros Hi. unfold handleFocus. rewrite (exec_with_instance _ _ _ _ Hi).
  by rewrite !exec_seq.
Qed.

Lemma handleFocus_hooks (i : nat) (x : Instance) (evt : SyntheticEvent) (w : World) :
  fibers w !! i = Some x ->
  hooks_of i (exec (handleFocus i evt) w)
  = Some {| allowTooltipVisibility := true;
            isHovered := negb (isHovered (hooks x));
            isFocused := true |}.
Proof.
  intros Hi. rewrite (handleFocus_exec _ _ _ _ Hi), closeTooltips_exec.
  unfold hooks_of. cbn. rewrite !lookup_alter_eq, Hi. reflexivity.
Qed.



(** ** Pointer enter *)

Lemma handleMouseEnter_exec (i : nat) (x : Instance) (evt : SyntheticEvent) (w : World) :
  fibers w !! i = Some x ->
  exec (handleMouseEnter i evt) w
  = let w1 := exec (clear_tooltipTimeout x) (exec (setIsHovered i true) w) in
    exec (setAllowTooltipVisibility i true)
      (if decide (Some (target evt) = tooltipRef x) then w1
       else exec (closeTooltips evt) w1).
Proof.
  intros Hi. unfold handleMouseEnter. rewrite (exec_with_instance _ _ _ _ Hi).
  rewrite !exec_seq. cbn zeta. destruct (decide _); [done|].
  by rewrite exec_seq.
Qed.

Lemma clear_tooltipTimeout_exec (x : Instance) (w : World) :
  exec (clear_tooltipTimeout x) w
  = {| clock := clock w; page := page w; keydown := keydown w;
       pending := match tooltipTimeout x with
                  | Some t => if truthy (JNum (Z.of_nat t))
                              then filter (fun y => timer_id y <> t) (pending w)
                              else pending w
                  | None => pending w
                  end;
       next_timer := next_timer w; fibers := fibers w; next_fiber := next_fiber w;
       trace := trace w ++ clear_actions x |}.
Proof.
  unfold clear_tooltipTimeout, clear_actions.
  destruct (tooltipTimeout x) as [t|]; [destruct (truthy _)|];
    destruct w; cbn; by rewrite ?app_nil_r.
Qed.

Lemma handleMouseEnter_page (i : nat) (x : Instance) (evt : SyntheticEvent) (w : World) :
  fibers w !! i = Some x ->
  Some (target evt) <> tooltipRef x ->
  page (exec (handleMouseEnter i evt) w) = closed_page (currentTarget evt) (page w).
Proof.
  intros Hi Hne. rewrite (handleMouseEnter_exec _ _ _ _ Hi). cbn zeta.
  rewrite decide_False by done.
  by rewrite closeTooltips_exec, clear_tooltipTimeout_exec.
Qed.

Lemma handleMouseEnter_trace (i : nat) (x : Instance) (evt : SyntheticEvent) (w : World) :
  fibers w !! i = Some x ->
  trace (exec (handleMouseEnter i evt) w)
  = trace w ++ (DidSetHovered i true :: clear_actions x)
    ++ (if decide (Some (target evt) = tooltipRef x) then []
        else close_actions (currentTarget evt) (page w))
    ++ [DidSetAllow i true].
Proof.
  intros Hi. rewrite (handleMouseEnter_exec _ _ _ _ Hi). cbn zeta.
  destruct (decide _);
    rewrite ?closeTooltips_exec, clear_tooltipTimeout_exec; cbn;
    by rewrite <- !app_assoc.
Qed.

Lemma handleMouseEnter_hooks (i : nat) (x : Instance) (evt : SyntheticEvent) (w : World) :
  fibers w !! i = Some x ->
  hooks_of i (exec (handleMouseEnter i evt) w)
  = Some {| allowTooltipVisibility := true; isHovered := true;
            isFocused := isFocused (hooks x) |}.
Proof.
  intros Hi. rewrite (handleMouseEnter_exec _ _ _ _ Hi). cbn zeta.
  destruct (decide _);
    rewrite ?closeTooltips_exec, clear_tooltipTimeout_exec;
    unfold hooks_of; cbn; by rewrite !lookup_alter_eq, Hi.
Qed.



(** ** Frames *)

#[local] Instance quiet_preorder : PreOrder quiet.
Proof.
  split.
  - intros w. unfold quiet. repeat split; auto.
  - intros w1 w2 w3 (Hk1 & Hf1 & Hd1 & Ht1 & Hp1) (Hk2 & Hf2 & Hd2 & Ht2 & Hp2).
    unfold quiet. repeat split.
    + congruence.
    + congruence.
    + intros ?. by apply Hd1, Hd2.
    + intros ?. by apply Hd2, Hd1.
    + lia.
    + intros t [Hin|Hlt]%Hp2; [|by right].
      apply Hp1 in Hin as [?|?]; [by left|right; lia].
Qed.

Lemma fires_app (i : nat) (l1 l2 : list Action) :
  fires i (l1 ++ l2) = (fires i l1 + fires i l2)%nat.
Proof. unfold fires. by rewrite filter_app, length_app. Qed.

#[local] Instance no_fire_preorder (i : nat) : PreOrder (no_fire i).
Proof.
  split.
  - intros w. exists []. by rewrite app_nil_r.
  - intros w1 w2 w3 (a1 & Ht1 & Hf1) (a2 & Ht2 & Hf2).
    exists (a1 ++ a2). split.
    + by rewrite Ht2, Ht1, app_assoc.
    + rewrite fires_app. lia.
Qed.

Section Keeps.
Context (R : World -> World -> Prop) `{!PreOrder R}.

Lemma keeps_ret {A} (a : A) : keeps R (ret a).
Proof. intros w. reflexivity. Qed.

Lemma keeps_bind {A B} (m : M A) (k : A -> M B) :
  keeps R m -> (forall a, keeps R (k a)) -> keeps R (bind m k).
Proof.
  intros Hm Hk w. unfold bind. specialize (Hm w).
  destruct (m w) as [a w1]. cbn in Hm.
  by etransitivity; [exact Hm|apply Hk].
Qed.

Lemma keeps_modify (f : World -> World) :
  (forall w, R w (f w)) -> keeps R (modify f).
Proof. intros Hf w. apply Hf. Qed.

Lemma keeps_for_each {A} (xs : list A) (f : A -> M unit) :
  (forall x, x ∈ xs -> keeps R (f x)) -> keeps R (for_each xs f).
Proof.
  induction xs as [|x xs IH]; intros Hf; cbn [for_each].
  - apply keeps_ret.
  - apply keeps_bind; [apply Hf; by left|].
    intros _. apply IH. intros y Hy. apply Hf. by right.
Qed.

Lemma keeps_with_instance (i : nat) (k : Instance -> M unit) :
  (forall x, keeps R (k x)) -> keeps R (with_instance i k).
Proof.
  intros Hk w. unfold with_instance.
  destruct (fibers w !! i); [apply Hk|reflexivity].
Qed.

End Keeps.

(** The primitives that are quiet. *)
Lemma quiet_log (a : Action) (w : World) : quiet w (log a w).
Proof. unfold quiet. cbn. repeat split; auto. Qed.

Lemma quiet_set_page (pg : list DomElement) (w : World) : quiet w (set_page pg w).
Proof. unfold quiet. cbn. repeat split; auto. Qed.

Lemma quiet_set_clock (c : nat) (w : World) : quiet w (set_clock c w).
Proof. unfold quiet. cbn. repeat split; auto. Qed.

Lemma quiet_alter (f : Instance -> Instance) (i : nat) (w : World) :
  quiet w (set_fibers (alter f i (fibers w)) w).
Proof.
  unfold quiet. cbn. split; [done|]. split; [done|].
  split; [intros j; apply lookup_alter_is_Some|]. split; [lia|]. auto.
Qed.

Lemma quiet_filter_pending (P : Timer -> Prop) `{!forall t, Decision (P t)} (w : World) :
  quiet w (set_pending (filter P (pending w)) w).
Proof.
  unfold quiet. cbn. repeat split; auto.
  intros t [_ ?]%list_elem_of_filter. by left.
Qed.

Lemma keeps_quiet_setTimeout (i delay : nat) : keeps quiet (setTimeout i delay).
Proof.
  intros w. unfold quiet. cbn. repeat split; auto.
  intros t [Hin| ->%list_elem_of_singleton]%elem_of_app; [by left|].
  right. cbn. lia.
Qed.

Ltac quiet_prim :=
  first
    [ apply keeps_ret; apply _
    | apply keeps_quiet_setTimeout
    | apply keeps_modify; intros ?;
      repeat first
        [ apply quiet_log | apply quiet_set_page | apply quiet_alter
        | apply quiet_filter_pending | apply quiet_set_clock
        | etransitivity; [|apply quiet_log] ] ].

Create HintDb quiet.

Ltac quiet_step :=
  repeat first
    [ solve [auto with quiet]
    | apply keeps_ret; apply _
    | apply keeps_with_instance; [apply _|intros ?]
    | apply keeps_for_each; [apply _|intros ? _]
    | match goal with
      | |- keeps _ (if ?c then _ else _) => destruct c
      | |- keeps _ (match ?o with Some _ => _ | None => _ end) => destruct o
      end
    | apply keeps_bind; [apply _| |intros ?] ].

Lemma keeps_quiet_toggleClass (n : nat) (name : string) (add : bool) :
  keeps quiet (toggleClass n name add).
Proof. unfold toggleClass. quiet_prim. Qed.

Lemma keeps_quiet_setAllow (i : nat) (b : bool) :
  keeps quiet (setAllowTooltipVisibility i b).
Proof. unfold setAllowTooltipVisibility, set_state. quiet_prim. Qed.

Lemma keeps_quiet_setIsHovered (i : nat) (b : bool) : keeps quiet (setIsHovered i b).
Proof. unfold setIsHovered, set_state. quiet_prim. Qed.

Lemma keeps_quiet_setIsFocused (i : nat) (b : bool) : keeps quiet (setIsFocused i b).
Proof. unfold setIsFocused, set_state. quiet_prim. Qed.

Lemma keeps_quiet_clearTimeout (t : nat) : keeps quiet (clearTimeout t).
Proof. unfold clearTimeout. quiet_prim. Qed.

Lemma keeps_quiet_write_tooltipTimeout (i t : nat) :
  keeps quiet (write_tooltipTimeout i t).
Proof. unfold write_tooltipTimeout. quiet_prim. Qed.

#[local] Hint Resolve keeps_quiet_toggleClass keeps_quiet_setAllow
  keeps_quiet_setIsHovered keeps_quiet_setIsFocused keeps_quiet_clearTimeout
  keeps_quiet_write_tooltipTimeout keeps_quiet_setTimeout : quiet.

Lemma keeps_quiet_closeTooltips (evt : SyntheticEvent) : keeps quiet (closeTooltips evt).
Proof.
  unfold closeTooltips. apply keeps_bind; [apply _| |].
  - intros w. reflexivity.
  - intros ns. apply keeps_for_each; [apply _|]. auto with quiet.
Qed.

Lemma keeps_quiet_hide (i : nat) : keeps quiet (hide i).
Proof. unfold hide. quiet_step. Qed.

#[local] Hint Resolve keeps_quiet_closeTooltips keeps_quiet_hide : quiet.

Lemma keeps_quiet_handleFocus (i : nat) (evt : SyntheticEvent) :
  keeps quiet (handleFocus i evt).
Proof. unfold handleFocus. quiet_step. Qed.

Lemma keeps_quiet_handleBlur (i : nat) : keeps quiet (handleBlur i).
Proof. unfold handleBlur. quiet_step. Qed.

Lemma keeps_quiet_handleMouseEnter (i : nat) (evt : SyntheticEvent) :
  keeps quiet (handleMouseEnter i evt).
Proof.
  unfold handleMouseEnter, clear_tooltipTimeout. quiet_step.
Qed.

Lemma keeps_quiet_handleMouseLeave (i : nat) : keeps quiet (handleMouseLeave i).
Proof.
  unfold handleMouseLeave. quiet_step.
Qed.

Lemma keeps_quiet_dispatchKeydown (event : KeyboardEvent) :
  keeps quiet (dispatchKeydown event).
Proof.
  intros w. unfold dispatchKeydown. apply keeps_for_each; [apply _|].
  intros [n|i] _; cbn [call_listener]; [apply keeps_ret; apply _|].
  unfold handleEscKeyDown. destruct (matches _ _); [|apply keeps_ret; apply _].
  apply keeps_quiet_hide.
Qed.

Lemma keeps_quiet_advance (dt : nat) : keeps quiet (advance dt).
Proof.
  intros w. unfold advance.
  match goal with |- quiet _ (for_each _ _ ?w0).2 => set (w1 := w0) end.
  transitivity w1.
  - subst w1. transitivity (set_clock (clock w + dt) w); [apply quiet_set_clock|].
    apply (quiet_filter_pending _ (set_clock _ w)).
  - apply (keeps_for_each quiet). intros t _. unfold fire.
    apply keeps_bind; [apply _|quiet_prim|intros _; apply keeps_quiet_hide].
Qed.

(** ** Mount, unmount and the invariant *)

Lemma wf_quiet (w w' : World) : wf w -> quiet w w' -> wf w'.
Proof.
  intros [Hl Hf Ht Hp] (Hk & Hn & Hd & Hnt & Hpd). split.
  - intros i. by rewrite Hk, Hl, Hd.
  - intros i ?%Hd. rewrite Hn. by apply Hf.
  - lia.
  - intros t [Hin|Hlt]%Hpd; [|done]. apply Hp in Hin. lia.
Qed.

Lemma wf_initial (pg : list DomElement) (foreign : list nat) :
  wf (initial_world pg foreign).
Proof.
  split; cbn.
  - intros i. rewrite lookup_empty. split.
    + by intros (n & ? & _)%list_elem_of_fmap.
    + by intros [? ?].
  - intros i. rewrite lookup_empty. by intros [? ?].
  - lia.
  - by intros t ?%elem_of_nil.
Qed.

Lemma wf_fresh_listener (w : World) :
  wf w -> HandleEscKeyDown (next_fiber w) ∉ keydown w.
Proof.
  intros Hwf Hin. apply (wf_listeners _ Hwf), (wf_fibers _ Hwf) in Hin. lia.
Qed.

Lemma mount_keydown (p : Props) (tip : nat) (w : World) :
  wf w ->
  keydown (mount p tip w).2 = keydown w ++ [HandleEscKeyDown (next_fiber w)].
Proof.
  intros Hwf. cbn. by rewrite decide_False by by apply wf_fresh_listener.
Qed.

Lemma mount_fibers (p : Props) (tip : nat) (w : World) :
  fibers (mount p tip w).2
  = <[next_fiber w :=
        {| props := defaultProps p; hooks := initial_hooks;
           tooltipRef := if truthy (js_opt JBool (hasIconOnly p))
                         then Some tip else None;
           tooltipTimeout := None |}]> (fibers w).
Proof. reflexivity. Qed.

Lemma wf_mount (p : Props) (tip : nat) (w : World) : wf w -> wf (mount p tip w).2.
Proof.
  intros Hwf. pose proof (mount_keydown p tip w Hwf) as Hk.
  pose proof (mount_fibers p tip w) as Hf.
  destruct Hwf as [Hl Hfib Ht Hp]. split.
  - intros i. rewrite Hk, Hf, elem_of_app, list_elem_of_singleton, Hl.
    rewrite lookup_insert_is_Some. split.
    + intros [?|[= ->]]; [|by left].
      destruct (decide (next_fiber w = i)); [by left|by right].
    + intros [->|[_ ?]]; [by right|by left].
  - intros i. rewrite Hf, lookup_insert_is_Some. cbn.
    intros [<-|[_ ?%Hfib]]; lia.
  - exact Ht.
  - exact Hp.
Qed.

Lemma unmount_exec (i : nat) (x : Instance) (w : World) :
  fibers w !! i = Some x ->
  exec (unmount i) w
  = {| clock := clock w; page := page w;
       keydown := filter (fun l => l <> HandleEscKeyDown i) (keydown w);
       pending := pending w; next_timer := next_timer w;
       fibers := delete i (fibers w); next_fiber := next_fiber w;
       trace := trace w ++ [DidRemoveListener (HandleEscKeyDown i); DidUnmount i] |}.
Proof.
  intros Hi. unfold unmount. rewrite (exec_with_instance _ _ _ _ Hi), exec_seq.
  unfold removeEventListener, exec, modify, log, set_fibers, set_keydown. cbn.
  by rewrite <- app_assoc.
Qed.

Lemma wf_unmount (i : nat) (w : World) : wf w -> wf (exec (unmount i) w).
Proof.
  intros Hwf. destruct (fibers w !! i) as [x|] eqn:Hi.
  - rewrite (unmount_exec _ _ _ Hi). destruct Hwf as [Hl Hfib Ht Hp]. split; cbn.
    + intros j. rewrite list_elem_of_filter, Hl, lookup_delete_is_Some. split.
      * intros [Hne ?]. split; [congruence|done].
      * intros [Hne ?]. split; [congruence|done].
    + intros j [_ ?]%lookup_delete_is_Some. by apply Hfib.
    + exact Ht.
    + exact Hp.
  - unfold unmount. by rewrite exec_with_instance_None.
Qed.

Lemma wf_step (e : Event) (w : World) : wf w -> wf (exec (step e) w).
Proof.
  intros Hwf. destruct e as [p tip|i|i evt|i|i evt|i|event|dt|pg]; cbn [step].
  - rewrite exec_bind. by apply wf_mount.
  - by apply wf_unmount.
  - eapply wf_quiet; [done|]. apply keeps_quiet_handleFocus.
  - eapply wf_quiet; [done|]. apply keeps_quiet_handleBlur.
  - eapply wf_quiet; [done|]. apply keeps_quiet_handleMouseEnter.
  - eapply wf_quiet; [done|]. apply keeps_quiet_handleMouseLeave.
  - eapply wf_quiet; [done|]. apply keeps_quiet_dispatchKeydown.
  - eapply wf_quiet; [done|]. apply keeps_quiet_advance.
  - eapply wf_quiet; [done|]. apply quiet_set_page.
Qed.

Lemma reachable_wf (w : World) : reachable w -> wf w.
Proof.
  induction 1 as [pg foreign|w e _ IH].
  - apply wf_initial.
  - by apply wf_step.
Qed.

Lemma reachable_mount (p : Props) (tip : nat) (w : World) :
  reachable w -> reachable (mount p tip w).2.
Proof.
  intros Hw. apply (reachable_step w (EvMount p tip)) in Hw.
  cbn [step] in Hw. by rewrite exec_bind in Hw.
Qed.

Lemma reachable_run (es : list Event) (w : World) :
  reachable w -> reachable (exec (run es) w).
Proof.
  revert w. induction es as [|e es IH]; intros w Hw; [done|].
  cbn [run]. rewrite exec_seq. apply IH. by constructor.
Qed.

Lemma filter_ne_snoc (l : Listener) (ls : list Listener) :
  l ∉ ls -> filter (fun y => y <> l) (ls ++ [l]) = ls.
Proof.
  intros Hl. rewrite filter_app, filter_cons, decide_False by (by intros ?).
  rewrite filter_nil, app_nil_r.
  induction ls as [|y ls IH]; [done|].
  apply not_elem_of_cons in Hl as [Hne Hl].
  rewrite filter_cons, decide_True by done. by rewrite IH.
Qed.

(** C5. In a reachable world, mounting adds exactly one keydown listener
    to [document] (the new instance's), unmounting that instance gives
    back the listeners there were before, and so does any number of
    mount/unmount cycles. *)
Theorem mount_unmount_restores_listeners (w : World) (p : Props) (tip : nat) :
  reachable w ->
  keydown (mount p tip w).2
  = keydown w ++ [HandleEscKeyDown (mount p tip w).1]
  /\ keydown (exec (unmount (mount p tip w).1) (mount p tip w).2) = keydown w
  /\ forall n, keydown (cycles n p tip w) = keydown w.
Proof.
  intros Hw.
  assert (Hcycle : forall w0, reachable w0 ->
    keydown (exec (unmount (mount p tip w0).1) (mount p tip w0).2) = keydown w0).
  { intros w0 Hw0. pose proof (reachable_wf _ Hw0) as Hwf.
    erewrite unmount_exec; [|rewrite mount_fibers; apply lookup_insert_eq].
    cbn [keydown]. rewrite mount_keydown by done.
    apply filter_ne_snoc. by apply wf_fresh_listener. }
  split; [|split].
  - apply mount_keydown. by apply reachable_wf.
  - by apply Hcycle.
  - intros n. revert w Hw. induction n as [|n IH]; intros w Hw; [done|].
    cbn [cycles]. destruct (mount p tip w) as [i w1] eqn:Hm.
    assert (Hi : i = (mount p tip w).1) by by rewrite Hm.
    assert (Hw1 : w1 = (mount p tip w).2) by by rewrite Hm.
    rewrite IH.
    + subst i w1. by apply Hcycle.
    + subst i w1. apply (reachable_step _ (EvUnmount _)). by apply reachable_mount.
Qed.

(** ** The hide callback, timers and the Escape listener *)

Lemma hide_exec (i : nat) (w : World) :
  exec (hide i) w
  = {| clock := clock w; page := page w; keydown := keydown w;
       pending := pending w; next_timer := next_timer w;
       fibers := alter hide_instance i (fibers w); next_fiber := next_fiber w;
       trace := trace w ++ [DidSetAllow i false; DidSetHovered i false] |}.
Proof.
  unfold hide. rewrite exec_seq.
  unfold setAllowTooltipVisibility, setIsHovered, exec, modify, log, set_state,
    set_fibers. cbn. rewrite <- app_assoc. f_equal.
  rewrite alter_alter_eq. apply alter_ext. by intros [] _.
Qed.

Lemma hide_all_lookup (js : list nat) (fs : gmap nat Instance) (i : nat) :
  hide_all js fs !! i
  = if decide (i ∈ js) then hide_instance <$> fs !! i else fs !! i.
Proof.
  unfold hide_all. revert fs. induction js as [|j js IH]; intros fs.
  - by rewrite decide_False by apply not_elem_of_nil.
  - cbn [fold_left]. rewrite IH.
    destruct (decide (j = i)) as [->|Hne].
    + rewrite lookup_alter_eq, (decide_True (P := i ∈ i :: js)) by (by left).
      destruct (decide (i ∈ js)); [|done].
      by destruct (fs !! i).
    + rewrite lookup_alter_ne by done.
      destruct (decide (i ∈ js)) as [Hin|Hout].
      * rewrite decide_True; [done|by right].
      * rewrite decide_False; [done|]. intros [?|?]%elem_of_cons; congruence.
Qed.

Lemma for_each_fire_exec (ts : list Timer) (w : World) :
  exec (for_each ts fire) w
  = {| clock := clock w; page := page w; keydown := keydown w;
       pending := pending w; next_timer := next_timer w;
       fibers := hide_all (map owner ts) (fibers w); next_fiber := next_fiber w;
       trace := trace w ++ fire_actions ts |}.
Proof.
  revert w. induction ts as [|t ts IH]; intros w.
  - destruct w. cbn. by rewrite app_nil_r.
  - cbn [for_each]. rewrite exec_seq, IH. unfold fire. rewrite exec_seq, hide_exec.
    unfold exec, modify, log. cbn. by rewrite <- !app_assoc.
Qed.

Lemma advance_exec (dt : nat) (w : World) :
  exec (advance dt) w
  = {| clock := clock w + dt; page := page w; keydown := keydown w;
       pending := later dt w; next_timer := next_timer w;
       fibers := hide_all (map owner (ready dt w)) (fibers w);
       next_fiber := next_fiber w;
       trace := trace w ++ fire_actions (ready dt w) |}.
Proof.
  change (exec (advance dt) w)
    with (exec (for_each (ready dt w) fire)
            (set_pending (later dt w) (set_clock (clock w + dt)%nat w))).
  by rewrite for_each_fire_exec.
Qed.

Lemma for_each_listener_exec (event : KeyboardEvent) (ls : list Listener) (w : World) :
  matches event [keys_Escape] = true ->
  fibers (exec (for_each ls (call_listener event)) w)
  = hide_all (esc_ids ls) (fibers w).
Proof.
  intros Hm. revert w. induction ls as [|l ls IH]; intros w; [done|].
  cbn [for_each]. rewrite exec_seq, IH.
  destruct l as [n|j]; cbn [call_listener esc_ids omap]; [done|].
  unfold handleEscKeyDown. rewrite Hm.
  change (bind (setAllowTooltipVisibility j false) (fun _ => setIsHovered j false))
    with (hide j).
  by rewrite hide_exec.
Qed.

Lemma elem_of_esc_ids (i : nat) (ls : list Listener) :
  i ∈ esc_ids ls <-> HandleEscKeyDown i ∈ ls.
Proof.
  unfold esc_ids. rewrite list_elem_of_omap. split.
  - intros ([n|j] & Hin & Heq); [done|]. by injection Heq as ->.
  - intros Hin. by exists (HandleEscKeyDown i).
Qed.

(** C4. In a reachable world, a keydown event that matches Escape and
    reaches [document] leaves every mounted instance, focused or not, with
    [allowTooltipVisibility] and [isHovered] false and [isFocused] as it
    was. *)
Theorem escape_hides_every_mounted_instance
    (w : World) (i : nat) (x : Instance) (event : KeyboardEvent) :
  reachable w ->
  fibers w !! i = Some x ->
  matches event [keys_Escape] = true ->
  hooks_of i (exec (dispatchKeydown event) w)
  = Some {| allowTooltipVisibility := false; isHovered := false;
            isFocused := isFocused (hooks x) |}.
Proof.
  intros Hw Hi Hm. apply reachable_wf in Hw.
  unfold hooks_of.
  change (exec (dispatchKeydown event) w)
    with (exec (for_each (keydown w) (call_listener event)) w).
  rewrite for_each_listener_exec by done.
  rewrite hide_all_lookup, decide_True, Hi; [done|].
  apply elem_of_esc_ids, (wf_listeners _ Hw). by rewrite Hi.
Qed.

(** ** Pointer leave and the hide timeout *)

Lemma handleMouseLeave_focused (i : nat) (x : Instance) (w : World) :
  fibers w !! i = Some x -> isFocused (hooks x) = true ->
  exec (handleMouseLeave i) w = w.
Proof.
  intros Hi Hf. unfold handleMouseLeave.
  by rewrite (exec_with_instance _ _ _ _ Hi), Hf.
Qed.

Lemma handleMouseLeave_exec (i : nat) (x : Instance) (w : World) :
  fibers w !! i = Some x -> isFocused (hooks x) = false ->
  exec (handleMouseLeave i) w
  = {| clock := clock w; page := page w; keydown := keydown w;
       pending := pending w ++ [hide_timer i w];
       next_timer := S (next_timer w);
       fibers := alter (set_tooltipTimeout (Some (next_timer w))) i (fibers w);
       next_fiber := next_fiber w;
       trace := trace w ++ [DidSetTimeout (next_timer w) (clock w + 100) i] |}.
Proof.
  intros Hi Hf. unfold handleMouseLeave.
  by rewrite (exec_with_instance _ _ _ _ Hi), Hf.
Qed.

Lemma fires_none (i : nat) (acts : list Action) :
  Forall (fun a => is_fire i a = false) acts -> fires i acts = 0%nat.
Proof.
  unfold fires. induction 1 as [|a acts Ha _ IH]; [done|].
  rewrite filter_cons, decide_False by congruence. exact IH.
Qed.

Lemma fires_fire_actions (i : nat) (ts : list Timer) :
  Forall (fun t => owner t <> i) ts -> fires i (fire_actions ts) = 0%nat.
Proof.
  intros Hts. apply fires_none. unfold fire_actions.
  induction Hts as [|t ts Ht _ IH]; cbn [flat_map app]; [done|].
  repeat constructor; [|exact IH]. cbn. by apply bool_decide_eq_false.
Qed.

Lemma idle_ready (i dt : nat) (w : World) : idle i w -> Forall (fun t => owner t <> i) (ready dt w).
Proof.
  unfold idle, ready. rewrite !Forall_forall.
  intros Hidle t [_ Hin]%list_elem_of_filter. by apply Hidle.
Qed.

Lemma idle_later (i dt : nat) (w : World) : idle i w -> Forall (fun t => owner t <> i) (later dt w).
Proof.
  unfold idle, later. rewrite !Forall_forall.
  intros Hidle t [_ Hin]%list_elem_of_filter. by apply Hidle.
Qed.

(** While instance [i] has no timeout pending, time passing leaves it
    alone. *)
Lemma advance_idle (i dt : nat) (w : World) :
  idle i w ->
  fibers (exec (advance dt) w) !! i = fibers w !! i
  /\ idle i (exec (advance dt) w)
  /\ no_fire i w (exec (advance dt) w).
Proof.
  intros Hidle. rewrite advance_exec. cbn. split; [|split].
  - rewrite hide_all_lookup, decide_False; [done|].
    intros (t & Heq & Hin)%list_elem_of_fmap.
    pose proof (idle_ready i dt w Hidle) as Hr.
    rewrite Forall_forall in Hr. by apply (Hr t Hin).
  - by apply idle_later.
  - eexists. split; [reflexivity|]. cbn.
    apply fires_fire_actions. by apply idle_ready.
Qed.

Lemma filter_all {A} (P : A -> Prop) `{!forall x, Decision (P x)} (l : list A) :
  Forall P l -> filter P l = l.
Proof.
  induction 1 as [|x l Hx _ IH]; [done|].
  by rewrite filter_cons, decide_True, IH by done.
Qed.

(** After a pointer-leave of an unfocused instance and fewer than 100 ms,
    the instance is as it was, but for the ref, and the timeout is the
    last one pending. *)
Lemma leave_then_wait (i : nat) (x : Instance) (w : World) (d : nat) :
  fibers w !! i = Some x -> isFocused (hooks x) = false ->
  idle i w -> (d < 100)%nat ->
  fibers (exec (advance d) (exec (handleMouseLeave i) w)) !! i
  = Some (set_tooltipTimeout (Some (next_timer w)) x)
  /\ pending (exec (advance d) (exec (handleMouseLeave i) w))
     = later d w ++ [hide_timer i w]
  /\ no_fire i w (exec (advance d) (exec (handleMouseLeave i) w)).
Proof.
  intros Hi Hf Hidle Hd.
  rewrite (handleMouseLeave_exec _ _ _ Hi Hf), advance_exec.
  unfold ready, later. cbn [clock pending fibers trace].
  rewrite !filter_app, !filter_cons, !filter_nil.
  rewrite (decide_False (P := (due (hide_timer i w) <= _)%nat)) by (cbn; lia).
  rewrite (decide_True (P := ~ (due (hide_timer i w) <= _)%nat)) by (cbn; lia).
  rewrite app_nil_r. fold (ready d w) (later d w).
  pose proof (idle_ready i d w Hidle) as Hr.
  split; [|split].
  - rewrite hide_all_lookup, decide_False.
    + by rewrite lookup_alter_eq, Hi.
    + intros (t & Heq & Hin)%list_elem_of_fmap.
      rewrite Forall_forall in Hr. by apply (Hr t Hin).
  - done.
  - eexists. split; [by rewrite <- app_assoc|].
    rewrite fires_app, fires_fire_actions by done. done.
Qed.

(** When 100 ms or more have passed after the pointer-leave, the instance
    is hidden. *)
Lemma leave_then_hide (i : nat) (x : Instance) (w : World) (d : nat) :
  fibers w !! i = Some x -> isFocused (hooks x) = false ->
  (100 <= d)%nat ->
  hooks_of i (exec (advance d) (exec (handleMouseLeave i) w))
  = Some (hide_hooks (hooks x)).
Proof.
  intros Hi Hf Hd.
  rewrite (handleMouseLeave_exec _ _ _ Hi Hf), advance_exec.
  unfold hooks_of, ready. cbn [clock pending fibers].
  rewrite filter_app, filter_cons, filter_nil.
  rewrite (decide_True (P := (due (hide_timer i w) <= _)%nat)) by (cbn; lia).
  rewrite hide_all_lookup, decide_True.
  - by rewrite lookup_alter_eq, Hi.
  - rewrite map_app. apply elem_of_app. right. by left.
Qed.

(** A pointer-enter takes the timeout of the last pointer-leave off the
    pending list. *)
Lemma enter_cancels (i : nat) (x : Instance) (evt : SyntheticEvent)
    (w : World) (ps : list Timer) (t : Timer) :
  fibers w !! i = Some x ->
  tooltipTimeout x = Some (timer_id t) ->
  (0 < timer_id t)%nat ->
  pending w = ps ++ [t] ->
  Forall (fun y => timer_id y <> timer_id t) ps ->
  pending (exec (handleMouseEnter i evt) w) = ps.
Proof.
  intros Hi Href Hpos Hp Hps. rewrite (handleMouseEnter_exec _ _ _ _ Hi). cbn zeta.
  destruct (decide _);
    rewrite ?closeTooltips_exec, clear_tooltipTimeout_exec, Href; cbn;
    (destruct (Z.of_nat (timer_id t) =? 0)%Z eqn:E; [lia|]); cbn;
    rewrite Hp, filter_app, filter_cons, decide_False, filter_nil, app_nil_r
      by (by intros ?);
    by apply filter_all.
Qed.

Lemma handleMouseEnter_no_fire (i j : nat) (x : Instance) (evt : SyntheticEvent) (w : World) :
  fibers w !! j = Some x ->
  no_fire i w (exec (handleMouseEnter j evt) w).
Proof.
  intros Hj. eexists. split; [by apply handleMouseEnter_trace|].
  apply fires_none. constructor; [done|]. apply Forall_app. split.
  - unfold clear_actions.
    destruct (tooltipTimeout x); [destruct (truthy _)|]; by repeat constructor.
  - apply Forall_app. split; [|by repeat constructor].
    destruct (decide _) as [?|?]; [done|]. unfold close_actions.
    by apply Forall_forall; intros a (node & -> & _)%list_elem_of_fmap.
Qed.

(** Whatever else is pending, the timeout of a pointer-leave is not
    pending any more after the pointer-enter that follows. *)
Lemma enter_cancels_last (i : nat) (x : Instance) (w : World) (d : nat)
    (evt : SyntheticEvent) :
  wf w -> fibers w !! i = Some x -> isFocused (hooks x) = false ->
  Forall (fun t => timer_id t <> next_timer w)
    (pending (exec (handleMouseEnter i evt)
                (exec (advance d) (exec (handleMouseLeave i) w)))).
Proof.
  intros Hwf Hi Hf.
  assert (Hx2 : exists x2,
    fibers (exec (advance d) (exec (handleMouseLeave i) w)) !! i = Some x2
    /\ tooltipTimeout x2 = Some (next_timer w)).
  { rewrite (handleMouseLeave_exec _ _ _ Hi Hf), advance_exec. cbn [fibers].
    rewrite hide_all_lookup, lookup_alter_eq, Hi.
    destruct (decide _); eexists; (split; [reflexivity|done]). }
  destruct Hx2 as (x2 & Hx2 & Href).
  rewrite (handleMouseEnter_exec _ _ _ _ Hx2). cbn zeta.
  pose proof (wf_next_timer _ Hwf) as Hpos.
  destruct (decide _);
    rewrite ?closeTooltips_exec, clear_tooltipTimeout_exec, Href; cbn;
    (destruct (Z.of_nat (next_timer w) =? 0)%Z eqn:E; [lia|]); cbn;
    apply Forall_forall; by intros t [? _]%list_elem_of_filter.
Qed.

Lemma exec_run_app (es1 es2 : list Event) (w : World) :
  exec (run (es1 ++ es2)) w = exec (run es2) (exec (run es1) w).
Proof.
  revert w. induction es1 as [|e es1 IH]; intros w; [done|].
  cbn [app run]. by rewrite !exec_seq, IH.
Qed.

(** One pointer-leave, fewer than 100 ms, one pointer-enter. *)
Lemma rapid_block (i : nat) (x : Instance) (w : World) (d : nat) (evt : SyntheticEvent) :
  wf w -> fibers w !! i = Some x -> isFocused (hooks x) = false ->
  idle i w -> (d < 100)%nat ->
  wf (exec (handleMouseEnter i evt) (exec (advance d) (exec (handleMouseLeave i) w)))
  /\ (exists x3,
        fibers (exec (handleMouseEnter i evt)
                  (exec (advance d) (exec (handleMouseLeave i) w))) !! i = Some x3
        /\ hooks x3 = shown_hooks)
  /\ idle i (exec (handleMouseEnter i evt)
               (exec (advance d) (exec (handleMouseLeave i) w)))
  /\ no_fire i w (exec (handleMouseEnter i evt)
                    (exec (advance d) (exec (handleMouseLeave i) w))).
Proof.
  intros Hwf Hi Hf Hidle Hd.
  destruct (leave_then_wait i x w d Hi Hf Hidle Hd) as (Hfib2 & Hpend2 & Hnf2).
  set (w2 := exec (advance d) (exec (handleMouseLeave i) w)) in *.
  split; [|split; [|split]].
  - apply (wf_step (EvMouseEnter i evt)), (wf_step (EvAdvance d)),
      (wf_step (EvMouseLeave i)), Hwf.
  - pose proof (handleMouseEnter_hooks i _ evt w2 Hfib2) as Hh.
    unfold hooks_of in Hh. apply fmap_Some in Hh as (x3 & Hx3 & Hh).
    exists x3. split; [done|]. rewrite <- Hh. cbn. by rewrite Hf.
  - unfold idle.
    rewrite (enter_cancels i _ evt w2 (later d w) (hide_timer i w) Hfib2).
    + by apply idle_later.
    + done.
    + cbn. apply (wf_next_timer _ Hwf).
    + done.
    + apply Forall_forall. intros t [_ Hin]%list_elem_of_filter.
      apply (wf_pending _ Hwf) in Hin. cbn. lia.
  - transitivity w2; [done|]. by apply handleMouseEnter_no_fire with (x := set_tooltipTimeout (Some (next_timer w)) x).
Qed.

Lemma rapid_run (i : nat) (moves : list (nat * SyntheticEvent)) (x : Instance) (w : World) :
  wf w -> fibers w !! i = Some x -> isFocused (hooks x) = false ->
  idle i w -> Forall (fun m => (m.1 < 100)%nat) moves ->
  wf (exec (run (rapid i moves)) w)
  /\ (exists x', fibers (exec (run (rapid i moves)) w) !! i = Some x'
                 /\ hooks x' = match moves with [] => hooks x | _ => shown_hooks end)
  /\ idle i (exec (run (rapid i moves)) w)
  /\ no_fire i w (exec (run (rapid i moves)) w).
Proof.
  intros Hwf Hi Hf Hidle Hmoves. revert x w Hwf Hi Hf Hidle.
  induction Hmoves as [|[d evt] moves Hd _ IH]; intros x w Hwf Hi Hf Hidle.
  - cbn. split; [done|]. split; [by exists x|]. split; [done|reflexivity].
  - cbn [rapid flat_map fst snd]. rewrite exec_run_app. cbn [run step].
    rewrite !exec_seq.
    change (exec (ret tt) ?w0) with w0.
    destruct (rapid_block i x w d evt Hwf Hi Hf Hidle Hd)
      as (Hwf3 & (x3 & Hx3 & Hh3) & Hidle3 & Hnf3).
    assert (Hf3 : isFocused (hooks x3) = false) by by rewrite Hh3.
    destruct (IH x3 _ Hwf3 Hx3 Hf3 Hidle3) as (Hwf' & (x' & Hx' & Hh') & Hidle' & Hnf').
    fold (rapid i moves).
    split; [done|]. split; [|split; [done|]].
    + exists x'. split; [done|]. rewrite Hh'. by destruct moves.
    + by transitivity
        (exec (handleMouseEnter i evt) (exec (advance d) (exec (handleMouseLeave i) w))).
Qed.

(** C6. A pointer-leave on a focused instance changes nothing.  On an
    unfocused one it schedules one timeout 100 ms ahead and leaves the hook
    state alone; when 100 ms or more have passed the instance has
    [allowTooltipVisibility] and [isHovered] false; and the pointer-enter
    that follows the pointer-leave takes that timeout off the pending
    list.  If the instance had no older timeout pending, nothing changes
    before the 100 ms are over, after a pointer-enter within them the
    instance stays hovered with the tooltip allowed however long one
    waits, and a run of leave/enter pairs less than 100 ms apart fires no
    timeout of the instance. *)
Theorem pointer_leave_hides_after_100ms (w : World) (i : nat) (x : Instance) :
  reachable w ->
  fibers w !! i = Some x ->
  (isFocused (hooks x) = true -> exec (handleMouseLeave i) w = w)
  /\ (isFocused (hooks x) = false ->
      pending (exec (handleMouseLeave i) w)
      = pending w ++ [{| timer_id := next_timer w; due := clock w + 100; owner := i |}]
      /\ hooks_of i (exec (handleMouseLeave i) w) = Some (hooks x)
      /\ (forall d, (100 <= d)%nat ->
            hooks_of i (exec (run [EvMouseLeave i; EvAdvance d]) w)
            = Some {| allowTooltipVisibility := false; isHovered := false;
                      isFocused := false |})
      /\ (forall d evt,
            Forall (fun t => timer_id t <> next_timer w)
              (pending (exec (run [EvMouseLeave i; EvAdvance d; EvMouseEnter i evt]) w)))
      /\ (idle i w ->
          (forall d, (d < 100)%nat ->
             hooks_of i (exec (run [EvMouseLeave i; EvAdvance d]) w) = Some (hooks x)
             /\ forall evt d',
                  hooks_of i (exec (run [EvMouseLeave i; EvAdvance d;
                                         EvMouseEnter i evt; EvAdvance d']) w)
                  = Some shown_hooks)
          /\ (forall moves,
                Forall (fun m => (m.1 < 100)%nat) moves -> moves <> [] ->
                no_fire i w (exec (run (rapid i moves)) w)
                /\ hooks_of i (exec (run (rapid i moves)) w) = Some shown_hooks))).
Proof.
  intros Hw Hi. apply reachable_wf in Hw. split.
  - by apply handleMouseLeave_focused.
  - intros Hf. split; [|split; [|split; [|split]]].
    + by rewrite (handleMouseLeave_exec _ _ _ Hi Hf).
    + rewrite (handleMouseLeave_exec _ _ _ Hi Hf). unfold hooks_of. cbn.
      by rewrite lookup_alter_eq, Hi.
    + intros d Hd. cbn [run step]. rewrite !exec_seq.
      change (exec (ret tt) ?w0) with w0.
      rewrite (leave_then_hide i x w d Hi Hf Hd). unfold hide_hooks. by rewrite Hf.
    + intros d evt. cbn [run step]. rewrite !exec_seq.
      change (exec (ret tt) ?w0) with w0.
      by apply enter_cancels_last with x.
    + intros Hidle. split.
      * intros d Hd. split.
        -- cbn [run step]. rewrite !exec_seq. change (exec (ret tt) ?w0) with w0.
           destruct (leave_then_wait i x w d Hi Hf Hidle Hd) as (Hfib & _ & _).
           unfold hooks_of. by rewrite Hfib.
        -- intros evt d'. cbn [run step]. rewrite !exec_seq.
           change (exec (ret tt) ?w0) with w0.
           destruct (rapid_block i x w d evt Hw Hi Hf Hidle Hd)
             as (_ & (x3 & Hx3 & Hh3) & Hidle3 & _).
           destruct (advance_idle i d' _ Hidle3) as (Hfib & _ & _).
           unfold hooks_of. by rewrite Hfib, Hx3, <- Hh3.
      * intros moves Hmoves Hne.
        destruct (rapid_run i moves x w Hw Hi Hf Hidle Hmoves)
          as (_ & (x' & Hx' & Hh') & _ & Hnf).
        split; [done|]. unfold hooks_of. rewrite Hx'. cbn. rewrite Hh'.
        by destruct moves.
Qed.

(** ** Unmount and the hide timeout *)

(** The cleanup leaves the pending timeouts alone. *)
Lemma unmount_keeps_pending (i : nat) (w : World) :
  pending (exec (unmount i) w) = pending w.
Proof.
  destruct (fibers w !! i) as [x|] eqn:Hi.
  - by rewrite (unmount_exec _ _ _ Hi).
  - unfold unmount. by rewrite exec_with_instance_None.
Qed.

(** A timeout pending at unmount fires when it is due. *)
Lemma timeout_outlives_unmount (i : nat) (w : World) (t : Timer) (dt : nat) :
  t ∈ pending w ->
  (due t <= clock w + dt)%nat ->
  DidFire (timer_id t) (owner t) ∈ trace (exec (advance dt) (exec (unmount i) w)).
Proof.
  intros Hin Hdue. rewrite advance_exec. cbn [trace].
  apply elem_of_app. right. unfold fire_actions.
  apply list_elem_of_In, in_flat_map. exists t. split; [|by left].
  apply list_elem_of_In. unfold ready. apply list_elem_of_filter.
  rewrite unmount_keeps_pending. split; [|done].
  destruct (fibers w !! i) as [x|] eqn:Hi.
  - by rewrite (unmount_exec _ _ _ Hi).
  - unfold unmount. by rewrite exec_with_instance_None.
Qed.

(** C7. Whatever the page and the configuration: an instance that is left
    by the pointer and unmounted 40 ms later still has its timeout pending
    after the unmount (the cleanup removes the keydown listener only), and
    the timeout fires when the 100 ms are over, calling the setters of the
    instance that is gone. *)
Theorem hide_timeout_fires_after_unmount
    (pg : list DomElement) (foreign : list nat) (p : Props) (tip : nat) :
  pending (exec (run [EvMount p tip; EvMouseLeave 0; EvAdvance 40; EvUnmount 0])
             (initial_world pg foreign))
  = [{| timer_id := 1; due := 100; owner := 0 |}]
  /\ fibers (exec (run [EvMount p tip; EvMouseLeave 0; EvAdvance 40; EvUnmount 0])
               (initial_world pg foreign)) !! 0%nat = None
  /\ trace (exec (run [EvMount p tip; EvMouseLeave 0; EvAdvance 40; EvUnmount 0;
                       EvAdvance 60]) (initial_world pg foreign))
     = [ DidMount 0; DidAddListener (HandleEscKeyDown 0);
         DidSetTimeout 1 100 0;
         DidRemoveListener (HandleEscKeyDown 0); DidUnmount 0;
         DidFire 1 0; DidSetAllow 0 false; DidSetHovered 0 false ].
Proof. repeat split; vm_compute; reflexivity. Qed.

(** C1. Whatever the page and the configuration: after a pointer-enter
    the instance has [isHovered] true, and the focus that follows (a click
    on the button, say) leaves it false, since [handleFocus] sets
    [isHovered] to the negation of its value at the last render. *)
Theorem focus_on_hovered_button_clears_isHovered
    (pg : list DomElement) (foreign : list nat) (p : Props) (tip : nat)
    (enter focus : SyntheticEvent) :
  hooks_of 0 (exec (run [EvMount p tip; EvMouseEnter 0 enter])
                (initial_world pg foreign))
  = Some {| allowTooltipVisibility := true; isHovered := true; isFocused := false |}
  /\ hooks_of 0 (exec (run [EvMount p tip; EvMouseEnter 0 enter; EvFocus 0 focus])
                   (initial_world pg foreign))
     = Some {| allowTooltipVisibility := true; isHovered := false; isFocused := true |}.
Proof.
  cbn [run step]. rewrite !exec_seq, exec_bind.
  change (exec (ret tt) ?w0) with w0.
  set (w1 := (mount p tip (initial_world pg foreign)).2).
  assert (Hentered : hooks_of 0 (exec (handleMouseEnter 0 enter) w1)
                     = Some {| allowTooltipVisibility := true; isHovered := true;
                               isFocused := false |}).
  { assert (Hx1 : fibers w1 !! 0%nat
                   = Some {| props := defaultProps p; hooks := initial_hooks;
                             tooltipRef := if truthy (js_opt JBool (hasIconOnly p))
                                           then Some tip else None;
                             tooltipTimeout := None |}).
    { subst w1. rewrite mount_fibers. apply lookup_insert_eq. }
    by rewrite (handleMouseEnter_hooks _ _ _ _ Hx1). }
  split; [exact Hentered|].
  unfold hooks_of in Hentered. apply fmap_Some in Hentered as (x2 & Hx2 & Hh2).
  rewrite (handleFocus_hooks _ _ _ _ Hx2). by rewrite <- Hh2.
Qed.

(** ** The handlers as world transformers *)

Lemma handleFocus_world (i : nat) (x : Instance) (evt : SyntheticEvent) (w : World) :
  fibers w !! i = Some x ->
  exec (handleFocus i evt) w
  = {| clock := clock w;
       page := closed_page (currentTarget evt) (page w);
       keydown := keydown w; pending := pending w; next_timer := next_timer w;
       fibers := <[i := set_hooks (focus_hooks (hooks x)) x]> (fibers w);
       next_fiber := next_fiber w;
       trace := trace w ++ close_actions (currentTarget evt) (page w)
                ++ [ DidSetHovered i (negb (isHovered (hooks x)));
                     DidSetFocused i true; DidSetAllow i true ] |}.
Proof.
  intros Hx. rewrite (handleFocus_exec i x) by done. rewrite closeTooltips_exec.
  unfold setAllowTooltipVisibility, setIsFocused, setIsHovered, exec, modify,
    log, set_state, set_fibers. cbn. f_equal.
  - apply map_eq; intros j. destruct (decide (j = i)) as [->|Hne].
    + by rewrite lookup_insert_eq, !lookup_alter_eq, Hx.
    + by rewrite lookup_insert_ne, !lookup_alter_ne.
  - by rewrite <- !app_assoc.
Qed.

Lemma handleBlur_world (i : nat) (x : Instance) (w : World) :
  fibers w !! i = Some x ->
  exec (handleBlur i) w
  = {| clock := clock w; page := page w; keydown := keydown w;
       pending := pending w; next_timer := next_timer w;
       fibers := <[i := set_hooks blur_hooks x]> (fibers w);
       next_fiber := next_fiber w;
       trace := trace w ++ [ DidSetHovered i false; DidSetFocused i false;
                             DidSetAllow i false ] |}.
Proof.
  intros Hx. unfold handleBlur. rewrite (exec_with_instance i _ w x) by done.
  rewrite !exec_seq.
  unfold setAllowTooltipVisibility, setIsFocused, setIsHovered, exec, modify,
    log, set_state, set_fibers. cbn. f_equal.
  - apply map_eq; intros j. destruct (decide (j = i)) as [->|Hne].
    + by rewrite lookup_insert_eq, !lookup_alter_eq, Hx.
    + by rewrite lookup_insert_ne, !lookup_alter_ne.
  - by rewrite <- !app_assoc.
Qed.

Lemma handleMouseEnter_fibers (i : nat) (x : Instance) (evt : SyntheticEvent) (w : World) :
  fibers w !! i = Some x ->
  fibers (exec (handleMouseEnter i evt) w)
  = <[i := set_hooks (enter_hooks (hooks x)) x]> (fibers w).
Proof.
  intros Hx. rewrite (handleMouseEnter_exec i x) by done. cbv zeta.
  destruct (decide (Some (target evt) = tooltipRef x));
    rewrite ?closeTooltips_exec, clear_tooltipTimeout_exec;
    unfold setAllowTooltipVisibility, setIsHovered, exec, modify,
      log, set_state, set_fibers; cbn;
    (apply map_eq; intros j; destruct (decide (j = i)) as [->|Hne];
     [ by rewrite lookup_insert_eq, !lookup_alter_eq, Hx
     | by rewrite lookup_insert_ne, !lookup_alter_ne ]).
Qed.

Lemma for_each_listener_no_match (event : KeyboardEvent) (ls : list Listener) (w : World) :
  matches event [keys_Escape] = false ->
  exec (for_each ls (call_listener event)) w = w.
Proof.
  intros Hm. induction ls as [|l ls IH]; [done|].
  cbn [for_each]. rewrite exec_seq.
  assert (exec (call_listener event l) w = w) as ->; [|exact IH].
  destruct l; [done|]. unfold call_listener, handleEscKeyDown. by rewrite Hm.
Qed.

(** What one step makes of a mounted instance: it was just created, or it
    was there before with the same props and the same tooltip node, and
    its hook state is untouched, or allows the tooltip, or is not
    hovered. *)
Lemma step_lookup (e : Event) (w : World) (j : nat) (x' : Instance) :
  fibers (exec (step e) w) !! j = Some x' ->
  (exists p tip, x' = fresh_instance p tip)
  \/ (exists x, fibers w !! j = Some x
        /\ props x' = props x /\ tooltipRef x' = tooltipRef x
        /\ (hooks x' = hooks x
            \/ allowTooltipVisibility (hooks x') = true
            \/ isHovered (hooks x') = false)).
Proof.
  assert (Hsame : forall x, fibers w !! j = Some x ->
            exists x0, fibers w !! j = Some x0
              /\ props x = props x0 /\ tooltipRef x = tooltipRef x0
              /\ (hooks x = hooks x0
                  \/ allowTooltipVisibility (hooks x) = true
                  \/ isHovered (hooks x) = false)).
  { intros x Hx. exists x. by repeat split; [|left]. }
  assert (Hhide : forall js, hide_all js (fibers w) !! j = Some x' ->
            exists x0, fibers w !! j = Some x0
              /\ props x' = props x0 /\ tooltipRef x' = tooltipRef x0
              /\ (hooks x' = hooks x0
                  \/ allowTooltipVisibility (hooks x') = true
                  \/ isHovered (hooks x') = false)).
  { intros js. rewrite hide_all_lookup. destruct (decide (j ∈ js)); [|by apply Hsame].
    intros (x0 & Hx0 & ->)%fmap_Some. exists x0. repeat split; [done|]. by right; right. }
  destruct e as [p tip|i|i evt|i|i evt|i|event|dt|pg]; cbn [step].
  - rewrite exec_bind. change (exec (ret tt) (mount p tip w).2) with (mount p tip w).2.
    rewrite mount_fibers. destruct (decide (j = next_fiber w)) as [->|Hne].
    + rewrite lookup_insert_eq. intros [= <-]. left. by exists p, tip.
    + rewrite lookup_insert_ne by done. intros Hx. right. by apply Hsame.
  - destruct (fibers w !! i) as [x|] eqn:Hi.
    + rewrite (unmount_exec i x) by done. cbn [fibers].
      intros [_ Hx]%lookup_delete_Some. right. by apply Hsame.
    + unfold unmount. rewrite exec_with_instance_None by done.
      intros Hx. right. by apply Hsame.
  - destruct (fibers w !! i) as [x|] eqn:Hi.
    + rewrite (handleFocus_world i x) by done. cbn [fibers].
      destruct (decide (j = i)) as [->|Hne].
      * rewrite lookup_insert_eq. intros [= <-]. right. exists x.
        repeat split; [done|]. by right; left.
      * rewrite lookup_insert_ne by done. intros Hx. right. by apply Hsame.
    + unfold handleFocus. rewrite exec_with_instance_None by done.
      intros Hx. right. by apply Hsame.
  - destruct (fibers w !! i) as [x|] eqn:Hi.
    + rewrite (handleBlur_world i x) by done. cbn [fibers].
      destruct (decide (j = i)) as [->|Hne].
      * rewrite lookup_insert_eq. intros [= <-]. right. exists x.
        repeat split; [done|]. by right; right.
      * rewrite lookup_insert_ne by done. intros Hx. right. by apply Hsame.
    + unfold handleBlur. rewrite exec_with_instance_None by done.
      intros Hx. right. by apply Hsame.
  - destruct (fibers w !! i) as [x|] eqn:Hi.
    + rewrite (handleMouseEnter_fibers i x) by done.
      destruct (decide (j = i)) as [->|Hne].
      * rewrite lookup_insert_eq. intros [= <-]. right. exists x.
        repeat split; [done|]. by right; left.
      * rewrite lookup_insert_ne by done. intros Hx. right. by apply Hsame.
    + unfold handleMouseEnter. rewrite exec_with_instance_None by done.
      intros Hx. right. by apply Hsame.
  - destruct (fibers w !! i) as [x|] eqn:Hi.
    + destruct (isFocused (hooks x)) eqn:Hf.
      * rewrite (handleMouseLeave_focused i x) by done.
        intros Hx. right. by apply Hsame.
      * rewrite (handleMouseLeave_exec i x) by done. cbn [fibers].
        destruct (decide (j = i)) as [->|Hne].
        -- rewrite lookup_alter_eq, Hi. intros [= <-]. right. exists x.
           repeat split; first [done|by left].
        -- rewrite lookup_alter_ne by done. intros Hx. right. by apply Hsame.
    + unfold handleMouseLeave. rewrite exec_with_instance_None by done.
      intros Hx. right. by apply Hsame.
  - destruct (matches event [keys_Escape]) eqn:Hm.
    + change (exec (dispatchKeydown event) w)
        with (exec (for_each (keydown w) (call_listener event)) w).
      rewrite for_each_listener_exec by done. intros Hx. right. by eapply Hhide.
    + change (exec (dispatchKeydown event) w)
        with (exec (for_each (keydown w) (call_listener event)) w).
      rewrite for_each_listener_no_match by done. intros Hx. right. by apply Hsame.
  - rewrite advance_exec. cbn [fibers]. intros Hx. right. by eapply Hhide.
  - intros Hx. right. by apply Hsame.
Qed.

(** ** Focus, blur and the tooltip text *)

(** Losing focus hides at once: the three hooks are false right after
    [handleBlur], no element of the page is touched, no timeout is
    scheduled or cancelled, and the other instances are as before.  A
    focus that follows shows the tooltip again. *)
Theorem blur_hides_and_focus_restores (w : World) (i : nat) (x : Instance) :
  fibers w !! i = Some x ->
  hooks_of i (exec (handleBlur i) w) = Some blur_hooks
  /\ page (exec (handleBlur i) w) = page w
  /\ pending (exec (handleBlur i) w) = pending w
  /\ (forall j, j <> i -> fibers (exec (handleBlur i) w) !! j = fibers w !! j)
  /\ (forall evt,
        hooks_of i (exec (run [EvBlur i; EvFocus i evt]) w)
        = Some {| allowTooltipVisibility := true; isHovered := true;
                  isFocused := true |}).
Proof.
  intros Hx. rewrite (handleBlur_world i x) by done. unfold hooks_of. cbn [fibers page pending].
  split; [by rewrite lookup_insert_eq|].
  split; [done|]. split; [done|].
  split; [by intros j Hne; rewrite lookup_insert_ne|].
  intros evt. cbn [run step]. rewrite !exec_seq. change (exec (ret tt) ?w0) with w0.
  rewrite (handleBlur_world i x) by done.
  rewrite (handleFocus_world i (set_hooks blur_hooks x)) by (cbn [fibers]; by rewrite lookup_insert_eq).
  cbn [fibers]. by rewrite lookup_insert_eq.
Qed.

(** The pointer entering the tooltip text itself: the page is left as it
    is (no class of any element is toggled), the pending hide is
    cancelled as for the button, and the tooltip is shown. *)
Theorem hover_on_tooltip_text (w : World) (i : nat) (x : Instance) (evt : SyntheticEvent) :
  fibers w !! i = Some x ->
  tooltipRef x = Some (target evt) ->
  page (exec (handleMouseEnter i evt) w) = page w
  /\ hooks_of i (exec (handleMouseEnter i evt) w) = Some (enter_hooks (hooks x))
  /\ trace (exec (handleMouseEnter i evt) w)
     = trace w ++ DidSetHovered i true :: clear_actions x ++ [DidSetAllow i true]
  /\ pending (exec (handleMouseEnter i evt) w)
     = pending (exec (clear_tooltipTimeout x) w).
Proof.
  intros Hx Href.
  split; [|split; [|split]].
  - rewrite (handleMouseEnter_exec i x) by done. cbv zeta.
    rewrite decide_True by done. by rewrite clear_tooltipTimeout_exec.
  - by rewrite (handleMouseEnter_hooks i x).
  - rewrite (handleMouseEnter_trace i x) by done.
    rewrite decide_True by done. by rewrite app_nil_l.
  - rewrite (handleMouseEnter_exec i x) by done. cbv zeta.
    rewrite decide_True by done. by rewrite !clear_tooltipTimeout_exec.
Qed.

(** ** The keydown listeners *)

(** A key that does not match Escape changes nothing: no setter is
    called, whatever is mounted and whoever listens. *)
Theorem other_key_changes_nothing (w : World) (event : KeyboardEvent) :
  matches event [keys_Escape] = false ->
  exec (dispatchKeydown event) w = w.
Proof.
  intros Hm.
  change (exec (dispatchKeydown event) w)
    with (exec (for_each (keydown w) (call_listener event)) w).
  by apply for_each_listener_no_match.
Qed.

Lemma foreign_ids_filter (i : nat) (ls : list Listener) :
  foreign_ids (filter (fun l => l <> HandleEscKeyDown i) ls) = foreign_ids ls.
Proof.
  induction ls as [|l ls IH]; [done|]. rewrite filter_cons.
  destruct (decide (l <> HandleEscKeyDown i)) as [Hne|Heq].
  - unfold foreign_ids in *. cbn [omap list_omap]. by rewrite IH.
  - apply dec_stable in Heq as ->. exact IH.
Qed.

Lemma step_foreign (e : Event) (w : World) :
  foreign_ids (keydown (exec (step e) w)) = foreign_ids (keydown w).
Proof.
  destruct e as [p tip|i|i evt|i|i evt|i|event|dt|pg]; cbn [step].
  - rewrite exec_bind. change (exec (ret tt) (mount p tip w).2) with (mount p tip w).2.
    unfold mount, addEventListener, exec, modify, log, set_keydown. cbn.
    destruct (decide (HandleEscKeyDown (next_fiber w) ∈ keydown w)); [done|].
    unfold foreign_ids. rewrite omap_app. cbn. by rewrite app_nil_r.
  - destruct (fibers w !! i) as [x|] eqn:Hi.
    + rewrite (unmount_exec i x) by done. cbn [keydown]. apply foreign_ids_filter.
    + unfold unmount. by rewrite exec_with_instance_None.
  - unfold exec. by destruct (keeps_quiet_handleFocus i evt w) as [-> _].
  - unfold exec. by destruct (keeps_quiet_handleBlur i w) as [-> _].
  - unfold exec. by destruct (keeps_quiet_handleMouseEnter i evt w) as [-> _].
  - unfold exec. by destruct (keeps_quiet_handleMouseLeave i w) as [-> _].
  - unfold exec. by destruct (keeps_quiet_dispatchKeydown event w) as [-> _].
  - unfold exec. by destruct (keeps_quiet_advance dt w) as [-> _].
  - done.
Qed.

(** The component adds and removes only its own listener: whatever
    happens, the other keydown listeners of [document] stay, in their
    order. *)
Theorem foreign_listeners_untouched (es : list Event) (w : World) :
  foreign_ids (keydown (exec (run es) w)) = foreign_ids (keydown w).
Proof.
  revert w. induction es as [|e es IH]; intros w; [done|].
  cbn [run]. rewrite exec_seq, IH. apply step_foreign.
Qed.

(** ** What holds of every mounted instance *)

Lemma reachable_instance (w : World) (i : nat) (x : Instance) :
  reachable w ->
  fibers w !! i = Some x ->
  (allowTooltipVisibility (hooks x) = false -> isHovered (hooks x) = false)
  /\ (is_Some (tooltipRef x) <-> hasIconOnly (props x) = Some true).
Proof.
  intros Hr. revert i x. induction Hr as [pg foreign|w e _ IH]; intros i x' Hx.
  - cbn [initial_world fibers] in Hx. by rewrite lookup_empty in Hx.
  - apply step_lookup in Hx as [(p & tip & ->)|(x & Hx & Hp & Href & Hh)].
    + split; [done|]. cbn [fresh_instance tooltipRef props defaultProps hasIconOnly].
      destruct (hasIconOnly p) as [[]|]; cbn; split;
        first [done | by intros [? [=]] | by eexists].
    + destruct (IH i x Hx) as [Hco Hicon]. rewrite Hp, Href. split; [|done].
      destruct Hh as [->|[Ha|Hh]]; [done| |done].
      intros Ha'. by rewrite Ha in Ha'.
Qed.


(** A button that is not icon-only has no tooltip text, so the pointer
    entering it always runs the close step: the guard of
    [handleMouseEnter] can only hold for an icon-only button. *)
Theorem plain_button_hover_closes_tooltips
    (w : World) (i : nat) (x : Instance) (evt : SyntheticEvent) :
  reachable w ->
  fibers w !! i = Some x ->
  hasIconOnly (props x) <> Some true ->
  tooltipRef x = None
  /\ page (exec (handleMouseEnter i evt) w) = closed_page (currentTarget evt) (page w)
  /\ trace (exec (handleMouseEnter i evt) w)
     = trace w ++ (DidSetHovered i true :: clear_actions x)
       ++ close_actions (currentTarget evt) (page w) ++ [DidSetAllow i true].
Proof.
  intros Hr Hx Hicon.
  destruct (reachable_instance w i x Hr Hx) as [_ Href].
  assert (Hnone : tooltipRef x = None).
  { destruct (tooltipRef x) as [n|]; [|done]. exfalso. apply Hicon, Href. by eexists. }
  split; [done|]. split.
  - apply (handleMouseEnter_page i x); [done|]. by rewrite Hnone.
  - rewrite (handleMouseEnter_trace i x) by done.
    rewrite decide_False; [done|]. by rewrite Hnone.
Qed.

Lemma esc_ids_filter (i : nat) (ls : list Listener) :
  esc_ids (filter (fun l => l <> HandleEscKeyDown i) ls)
  = filter (fun j => j <> i) (esc_ids ls).
Proof.
  induction ls as [|l ls IH]; [done|]. rewrite filter_cons.
  destruct l as [n|j].
  - rewrite decide_True by done. exact IH.
  - destruct (decide (j = i)) as [->|Hne].
    + rewrite decide_False by (by intros Hc; apply Hc).
      unfold esc_ids at 2. cbn [omap list_omap]. fold (esc_ids ls).
      rewrite filter_cons, decide_False by (by intros Hc; apply Hc). exact IH.
    + rewrite decide_True by congruence.
      unfold esc_ids at 1 2. cbn [omap list_omap]. fold (esc_ids ls).
      fold (esc_ids (filter (fun l => l <> HandleEscKeyDown i) ls)).
      rewrite filter_cons, decide_True by done. by rewrite IH.
Qed.

Lemma reachable_NoDup_esc (w : World) : reachable w -> NoDup (esc_ids (keydown w)).
Proof.
  induction 1 as [pg foreign|w e Hr IH].
  - cbn [initial_world keydown]. induction foreign as [|n ns IHn]; [constructor|exact IHn].
  - destruct e as [p tip|i|i evt|i|i evt|i|event|dt|pg]; cbn [step].
    + rewrite exec_bind. change (exec (ret tt) (mount p tip w).2) with (mount p tip w).2.
      rewrite mount_keydown by (by apply reachable_wf).
      unfold esc_ids. rewrite omap_app. cbn [omap list_omap]. fold (esc_ids (keydown w)).
      apply NoDup_app. split; [done|]. split; [|apply NoDup_singleton].
      intros j Hj ->%list_elem_of_singleton.
      apply elem_of_esc_ids in Hj.
      by apply (wf_fresh_listener w (reachable_wf w Hr)).
    + destruct (fibers w !! i) as [x|] eqn:Hi.
      * rewrite (unmount_exec i x) by done. cbn [keydown].
        rewrite esc_ids_filter. by apply NoDup_filter.
      * unfold unmount. by rewrite exec_with_instance_None.
    + unfold exec. by destruct (keeps_quiet_handleFocus i evt w) as [-> _].
    + unfold exec. by destruct (keeps_quiet_handleBlur i w) as [-> _].
    + unfold exec. by destruct (keeps_quiet_handleMouseEnter i evt w) as [-> _].
    + unfold exec. by destruct (keeps_quiet_handleMouseLeave i w) as [-> _].
    + unfold exec. by destruct (keeps_quiet_dispatchKeydown event w) as [-> _].
    + unfold exec. by destruct (keeps_quiet_advance dt w) as [-> _].
    + done.
Qed.

(** One Escape listener for each mounted instance, and no other: in every
    world a page load can reach, no instance is registered twice and the
    number of Escape listeners on [document] is the number of mounted
    instances. *)
Theorem one_escape_listener_per_instance (w : World) :
  reachable w ->
  NoDup (esc_ids (keydown w))
  /\ length (esc_ids (keydown w)) = base.size (fibers w)
  /\ (forall i, i ∈ esc_ids (keydown w) <-> is_Some (fibers w !! i)).
Proof.
  intros Hr. pose proof (reachable_NoDup_esc w Hr) as Hnd.
  pose proof (reachable_wf w Hr) as Hwf.
  assert (Hiff : forall i, i ∈ esc_ids (keydown w) <-> is_Some (fibers w !! i)).
  { intros i. rewrite elem_of_esc_ids. apply (wf_listeners w Hwf). }
  split; [done|]. split; [|done].
  rewrite <- length_map_to_list, <- (length_fmap fst (map_to_list (fibers w))).
  apply Permutation_length, NoDup_Permutation; [done|apply NoDup_fst_map_to_list|].
  intros i. rewrite Hiff, list_elem_of_fmap. split.
  - intros [x Hx]. exists (i, x). split; [done|]. by apply elem_of_map_to_list.
  - intros ([j x] & -> & Hx%elem_of_map_to_list). by eexists.
Qed.

(** ** Focus and the pending hide *)

(** [handleFocus] does not cancel the hide that a pointer-leave
    scheduled: a button that gets focus within 100 ms of the pointer
    leaving it is hidden when the timeout fires, focused as it is. *)
Theorem focus_does_not_cancel_hide
    (w : World) (i : nat) (x : Instance) (evt : SyntheticEvent) (d1 d2 : nat) :
  fibers w !! i = Some x ->
  isFocused (hooks x) = false ->
  (d1 < 100)%nat ->
  (100 <= d1 + d2)%nat ->
  pending (exec (run [EvMouseLeave i; EvAdvance d1; EvFocus i evt]) w)
  = pending (exec (run [EvMouseLeave i; EvAdvance d1]) w)
  /\ hide_timer i w ∈ pending (exec (run [EvMouseLeave i; EvAdvance d1; EvFocus i evt]) w)
  /\ hooks_of i (exec (run [EvMouseLeave i; EvAdvance d1; EvFocus i evt; EvAdvance d2]) w)
     = Some {| allowTooltipVisibility := false; isHovered := false;
               isFocused := true |}.
Proof.
  intros Hx Hf Hd1 Hd2. cbn [run step]. rewrite !exec_seq.
  change (exec (ret tt) ?w0) with w0.
  set (w1 := exec (handleMouseLeave i) w).
  set (w2 := exec (advance d1) w1).
  assert (Hw1 : pending w1 = pending w ++ [hide_timer i w] /\ clock w1 = clock w
                /\ is_Some (fibers w1 !! i)).
  { unfold w1. rewrite (handleMouseLeave_exec i x) by done. cbn [pending clock fibers].
    split; [done|]. split; [done|]. rewrite lookup_alter_eq, Hx. by eexists. }
  destruct Hw1 as (Hp1 & Hc1 & Hm1).
  assert (Hw2 : hide_timer i w ∈ pending w2 /\ clock w2 = (clock w + d1)%nat
                /\ is_Some (fibers w2 !! i)).
  { unfold w2. rewrite advance_exec. cbn [pending clock fibers].
    split; [|split; [by rewrite Hc1|]].
    - unfold later. apply list_elem_of_filter. split.
      + rewrite Hc1. cbn [hide_timer due]. lia.
      + rewrite Hp1. apply elem_of_app. right. by apply list_elem_of_singleton.
    - rewrite hide_all_lookup. destruct Hm1 as [x1 ->]. by destruct (decide _); eexists. }
  destruct Hw2 as (Hp2 & Hc2 & [x2 Hx2]).
  rewrite (handleFocus_world i x2) by done.
  split; [done|]. split; [done|].
  rewrite advance_exec. unfold hooks_of. cbn [fibers].
  rewrite hide_all_lookup, decide_True.
  - by rewrite lookup_insert_eq.
  - apply list_elem_of_fmap. exists (hide_timer i w). split; [done|].
    unfold ready. apply list_elem_of_filter. cbn [pending clock]. split; [|done].
    rewrite Hc2. cbn [hide_timer due]. lia.
Qed.

(** ** The close step as one pass over the page *)



End HandlerProperties.

(* ===================================================================== *)
(** * The properties on concrete inputs *)
(* ===================================================================== *)

#[local] Existing Instance carbon.

Ltac by_evaluation := apply (bool_decide_unpack _); vm_compute; exact I.




(** A disabled button with an href, and a link that is not disabled. *)
Lemma disabled_href_renders_button_witness :
  type_truthy (as_ disabled_link) = false
  /\ disabled disabled_link = Some true
  /\ host (Button disabled_link JNull initial_hooks) = Some (HostTag "button")
  /\ type_truthy (as_ (defaultProps plain_link)) = false
  /\ host (Button (defaultProps plain_link) JNull initial_hooks) = Some (HostTag "a").
Proof.
  split; [reflexivity|]. split; [reflexivity|]. split.
  - exact (proj1 (disabled_href_renders_button disabled_link JNull initial_hooks
                    eq_refl) eq_refl).
  - split; [reflexivity|].
    exact (proj2 (proj2 (disabled_href_renders_button (defaultProps plain_link) JNull
                           initial_hooks eq_refl))
             (conj eq_refl eq_refl)).
Defined.

(** Escape while the only mounted button is focused. *)
Lemma escape_hides_every_mounted_instance_witness :
  reachable one_focused
  /\ fibers one_focused !! 0%nat
     = Some (icon_instance 11 {| allowTooltipVisibility := true; isHovered := true;
                                 isFocused := true |})
  /\ matches escape_key [keys_Escape] = true
  /\ hooks_of 0 (exec (dispatchKeydown escape_key) one_focused)
     = Some {| allowTooltipVisibility := false; isHovered := false; isFocused := true |}.
Proof.
  assert (H1 : reachable one_focused)
    by exact (reachable_run _ _ (reachable_initial _ _)).
  assert (H2 : fibers one_focused !! 0%nat
               = Some (icon_instance 11 {| allowTooltipVisibility := true;
                                           isHovered := true; isFocused := true |}))
    by (vm_compute; reflexivity).
  assert (H3 : matches escape_key [keys_Escape] = true) by reflexivity.
  split; [exact H1|]. split; [exact H2|]. split; [exact H3|].
  exact (escape_hides_every_mounted_instance one_focused 0 _ escape_key H1 H2 H3).
Defined.

(** One mount, one mount and unmount, and three cycles on a page with one
    foreign listener. *)
Lemma mount_unmount_restores_listeners_witness :
  reachable loaded
  /\ keydown (mount icon_button 11 loaded).2 = [Foreign 7; HandleEscKeyDown 0]
  /\ keydown (exec (unmount 0) (mount icon_button 11 loaded).2) = [Foreign 7]
  /\ keydown (cycles 3 icon_button 11 loaded) = [Foreign 7].
Proof.
  assert (H1 : reachable loaded) by apply reachable_initial.
  split; [exact H1|].
  destruct (mount_unmount_restores_listeners loaded icon_button 11 H1)
    as (Hmount & Hunmount & Hcycles).
  split; [exact Hmount|]. split; [exact Hunmount|]. exact (Hcycles 3%nat).
Defined.

(** Pointer-leave on a focused and on an unfocused button; waiting 100 ms,
    99 ms, re-entering after 99 ms, and two rapid leave/enter pairs. *)
Lemma pointer_leave_hides_after_100ms_witness :
  (reachable one_mounted
   /\ fibers one_mounted !! 0%nat = Some (icon_instance 11 initial_hooks)
   /\ idle 0 one_mounted)
  /\ (reachable one_focused
      /\ exec (handleMouseLeave 0) one_focused = one_focused)
  /\ pending (exec (handleMouseLeave 0) one_mounted)
     = [{| timer_id := 1; due := 100; owner := 0 |}]
  /\ hooks_of 0 (exec (run [EvMouseLeave 0; EvAdvance 100]) one_mounted)
     = Some {| allowTooltipVisibility := false; isHovered := false; isFocused := false |}
  /\ hooks_of 0 (exec (run [EvMouseLeave 0; EvAdvance 99]) one_mounted)
     = Some initial_hooks
  /\ hooks_of 0 (exec (run [EvMouseLeave 0; EvAdvance 99;
                            EvMouseEnter 0 (on_node 10); EvAdvance 500]) one_mounted)
     = Some shown_hooks
  /\ no_fire 0 one_mounted
       (exec (run (rapid 0 [(30%nat, on_node 10); (99%nat, on_node 10)])) one_mounted)
  /\ hooks_of 0 (exec (run (rapid 0 [(30%nat, on_node 10); (99%nat, on_node 10)]))
                   one_mounted)
     = Some shown_hooks.
Proof.
  assert (H1 : reachable one_mounted)
    by exact (reachable_run _ _ (reachable_initial _ _)).
  assert (H2 : fibers one_mounted !! 0%nat = Some (icon_instance 11 initial_hooks))
    by (vm_compute; reflexivity).
  assert (H3 : idle 0 one_mounted) by by_evaluation.
  assert (H4 : reachable one_focused)
    by exact (reachable_run _ _ (reachable_initial _ _)).
  assert (H5 : fibers one_focused !! 0%nat
               = Some (icon_instance 11 {| allowTooltipVisibility := true;
                                           isHovered := true; isFocused := true |}))
    by (vm_compute; reflexivity).
  split; [by repeat split|].
  split.
  { split; [exact H4|].
    exact (proj1 (pointer_leave_hides_after_100ms one_focused 0 _ H4 H5) eq_refl). }
  destruct (proj2 (pointer_leave_hides_after_100ms one_mounted 0 _ H1 H2) eq_refl)
    as (Hpending & _ & Hlate & _ & Hidle).
  destruct (Hidle H3) as (Hearly & Hrapid).
  split; [exact Hpending|].
  split; [exact (Hlate 100%nat (le_n _))|].
  destruct (Hearly 99%nat (le_n _)) as (Hsame & Hcancel).
  split; [exact Hsame|].
  split; [exact (Hcancel (on_node 10) 500%nat)|].
  apply (Hrapid [(30%nat, on_node 10); (99%nat, on_node 10)]).
  - repeat constructor; cbn; lia.
  - discriminate.
Defined.

(** C8 as stated fails where the caller supplies what the component does
    not add: a link that is neither icon-only nor ghost and is passed
    [aria-pressed] among the rest props is rendered as an anchor with that
    [aria-pressed], and a button whose [className] from the caller has the
    selected token carries it. *)
Lemma caller_supplies_pressed_or_selected :
  ~ (hasIconOnly pressed_link = Some true /\ kind pressed_link = Some "ghost")
  /\ host (Button pressed_link JNull initial_hooks) = Some (HostTag "a")
  /\ attr "aria-pressed" (Button pressed_link JNull initial_hooks) = JStr "true"
  /\ emitted (attr "aria-pressed" (Button pressed_link JNull initial_hooks))
  /\ ~ (hasIconOnly styled_button = Some true /\ kind styled_button = Some "ghost")
  /\ has_class (cls "--btn--selected")
       (class_attr (Button styled_button JNull initial_hooks)).
Proof.
  split; [by_evaluation|]. split; [reflexivity|]. split; [reflexivity|].
  split; [by split|]. split; by_evaluation.
Qed.

(** The ghost scenario; a selected icon-only button of kind primary; a
    primary button and a primary link that are passed [aria-pressed]. *)
Lemma selected_only_for_ghost_icon_only_witness :
  no_space prefix = true
  /\ (~ (hasIconOnly primary_selected = Some true /\ kind primary_selected = Some "ghost")
      /\ no_space (default "" (kind primary_selected)) = true)
  /\ (~ (hasIconOnly pressed_button = Some true /\ kind pressed_button = Some "ghost")
      /\ no_space (default "" (kind pressed_button)) = true)
  /\ (~ (hasIconOnly pressed_link = Some true /\ kind pressed_link = Some "ghost")
      /\ no_space (default "" (kind pressed_link)) = true)
  /\ (host (Button (defaultProps ghost_selected) JNull initial_hooks)
      = Some (HostTag "button")
      /\ has_class (cls "--btn--selected")
           (class_attr (Button (defaultProps ghost_selected) JNull initial_hooks))
      /\ attr "aria-pressed" (Button (defaultProps ghost_selected) JNull initial_hooks)
         = JBool true)
  /\ ~ has_class (cls "--btn--selected")
         (class_attr (Button primary_selected JNull initial_hooks))
  /\ ~ emitted (attr "aria-pressed" (Button primary_selected JNull initial_hooks))
  /\ attr "aria-pressed" (Button pressed_button JNull initial_hooks) = JNull
  /\ attr "aria-pressed" (Button pressed_link JNull initial_hooks) = JStr "true".
Proof.
  assert (H1 : no_space prefix = true) by reflexivity.
  assert (H2 : ~ (hasIconOnly primary_selected = Some true
                  /\ kind primary_selected = Some "ghost")) by by_evaluation.
  assert (H3 : no_space (default "" (kind primary_selected)) = true) by reflexivity.
  assert (H4 : ~ (hasIconOnly pressed_button = Some true
                  /\ kind pressed_button = Some "ghost")) by by_evaluation.
  assert (H5 : no_space (default "" (kind pressed_button)) = true) by reflexivity.
  assert (H6 : ~ (hasIconOnly pressed_link = Some true
                  /\ kind pressed_link = Some "ghost")) by by_evaluation.
  assert (H7 : no_space (default "" (kind pressed_link)) = true) by reflexivity.
  assert (H8 : ~ has_class (cls "--btn--selected")
                   (default "" (className primary_selected))) by by_evaluation.
  assert (H9 : "aria-pressed" ∉ (other primary_selected).*1) by by_evaluation.
  split; [exact H1|]. split; [by split|]. split; [by split|]. split; [by split|].
  destruct (selected_only_for_ghost_icon_only primary_selected JNull initial_hooks
              H1 H2 H3) as (Hghost & Hclass & _ & _ & Haria).
  destruct (selected_only_for_ghost_icon_only pressed_button JNull initial_hooks
              H1 H4 H5) as (_ & _ & Hbutton & _ & _).
  destruct (selected_only_for_ghost_icon_only pressed_link JNull initial_hooks
              H1 H6 H7) as (_ & _ & _ & Hanchor & _).
  split; [exact Hghost|].
  split; [exact (fun Hc => H8 (proj1 Hclass Hc))|].
  split; [exact (Haria H9)|].
  split; [exact (Hbutton (or_intror eq_refl))|].
  exact (Hanchor eq_refl eq_refl).
Defined.

(** An icon without and with a description. *)
Lemma iconDescription_validator_witness :
  renderIcon bare_icon = Some "Add16"
  /\ propTypes_iconDescription bare_icon
     = Some "renderIcon property specified without also providing an iconDescription property."
  /\ renderIcon icon_button = Some "Add16"
  /\ propTypes_iconDescription icon_button = None.
Proof.
  split; [reflexivity|]. split.
  - exact (proj1 (iconDescription_validator bare_icon "Add16" eq_refl) eq_refl eq_refl).
  - split; [reflexivity|].
    exact (proj2 (iconDescription_validator icon_button "Add16" eq_refl)
             (or_intror eq_refl)).
Defined.

(** A hovered text button. *)
Lemma tooltip_visible_ignores_icon_only_witness :
  no_space prefix = true
  /\ hasIconOnly text_button = Some false
  /\ has_class (cls "--tooltip--visible")
       (class_attr (Button text_button JNull
                      {| allowTooltipVisibility := true; isHovered := true;
                         isFocused := false |})).
Proof.
  split; [reflexivity|]. split; [reflexivity|].
  exact (tooltip_visible_ignores_icon_only text_button JNull
           {| allowTooltipVisibility := true; isHovered := true; isFocused := false |}
           eq_refl eq_refl).
Defined.

(** ** The further properties on concrete inputs *)

(** A small danger button. *)
Lemma size_tokens_witness :
  (no_space prefix = true
   /\ no_space (default "" (kind small_danger)) = true
   /\ className small_danger = None)
  /\ has_class (cls "--btn--sm") (class_attr (Button small_danger JNull initial_hooks))
  /\ ~ has_class (cls "--btn--lg") (class_attr (Button small_danger JNull initial_hooks)).
Proof.
  split; [by repeat split|].
  destruct (size_tokens (H := carbon) small_danger JNull initial_hooks eq_refl eq_refl eq_refl)
    as (_ & Hsm & Hlg & _); [discriminate..|].
  split.
  - exact (proj2 Hsm (or_intror (or_introl eq_refl))).
  - intros Hc. apply Hlg in Hc. discriminate Hc.
Defined.

(** The danger button is disabled. *)
Lemma variant_tokens_witness :
  (no_space prefix = true /\ kind small_danger = Some "danger")
  /\ has_class (cls "--btn") (class_attr (Button small_danger JNull initial_hooks))
  /\ has_class (cls "--btn--danger") (class_attr (Button small_danger JNull initial_hooks))
  /\ has_class (cls "--btn--disabled")
       (class_attr (Button small_danger JNull initial_hooks)).
Proof.
  split; [by split|].
  destruct (variant_tokens (H := carbon) small_danger JNull initial_hooks "danger" eq_refl eq_refl
              eq_refl) as (Hbtn & Hkind & Hdis); [discriminate..|].
  split; [exact Hbtn|]. split; [exact Hkind|].
  exact (proj2 (Hdis eq_refl) eq_refl).
Defined.

(** The icon-only button with the default position and alignment. *)
Lemma icon_only_tokens_witness :
  (no_space prefix = true
   /\ hasIconOnly (defaultProps icon_button) = Some true
   /\ tooltipPosition (defaultProps icon_button) = Some PosTop
   /\ tooltipAlignment (defaultProps icon_button) = Some AlignCenter)
  /\ Forall (fun s => has_class (cls s)
                        (class_attr (Button (defaultProps icon_button) JNull initial_hooks)))
       [ "--btn--icon-only"; "--tooltip__trigger"; "--tooltip--a11y";
         "--tooltip--top"; "--tooltip--align-center" ].
Proof.
  split; [by repeat split|].
  exact (icon_only_tokens (H := carbon) (defaultProps icon_button) JNull initial_hooks
           PosTop AlignCenter eq_refl eq_refl eq_refl eq_refl).
Defined.

(** The icon-only button after a blur. *)
Lemma tooltip_state_tokens_witness :
  (no_space prefix = true
   /\ no_space (default "" (kind icon_button)) = true
   /\ className icon_button = None)
  /\ has_class (cls "--tooltip--hidden") (class_attr (Button icon_button JNull blur_hooks))
  /\ ~ has_class (cls "--tooltip--visible")
         (class_attr (Button icon_button JNull blur_hooks)).
Proof.
  split; [by repeat split|].
  destruct (tooltip_state_tokens (H := carbon) icon_button JNull blur_hooks eq_refl eq_refl eq_refl)
    as (Hhid & Hvis).
  split.
  - exact (proj2 Hhid (conj eq_refl eq_refl)).
  - intros Hc. apply Hvis in Hc. discriminate Hc.
Defined.

(** A text button whose caller adds the hidden token. *)
Lemma tooltip_tokens_need_icon_only_witness :
  (no_space prefix = true
   /\ hasIconOnly hidden_by_caller <> Some true
   /\ no_space (default "" (kind hidden_by_caller)) = true
   /\ has_class (cls "--tooltip--hidden")
        (class_attr (Button hidden_by_caller JNull initial_hooks)))
  /\ has_class (cls "--tooltip--hidden") (default "" (className hidden_by_caller)).
Proof.
  assert (H1 : hasIconOnly hidden_by_caller <> Some true) by discriminate.
  assert (H2 : has_class (cls "--tooltip--hidden")
                 (class_attr (Button hidden_by_caller JNull initial_hooks)))
    by by_evaluation.
  split; [by repeat split|].
  exact (tooltip_tokens_need_icon_only (H := carbon) hidden_by_caller JNull initial_hooks
           (cls "--tooltip--hidden") eq_refl H1 eq_refl (or_introl eq_refl) H2).
Defined.

(** A disabled link rendered through the caller's component. *)
Lemma as_override_merges_href_witness :
  (as_ custom_link = Some (Component "Link")
   /\ type_truthy (Some (Component "Link")) = true)
  /\ host (Button custom_link JNull initial_hooks) = Some (Component "Link")
  /\ attr "href" (Button custom_link JNull initial_hooks) = JStr "/docs"
  /\ attr "disabled" (Button custom_link JNull initial_hooks) = JBool true
  /\ attr "type" (Button custom_link JNull initial_hooks) = JStr "button".
Proof.
  split; [by split|].
  exact (as_override_merges_href (H := carbon) custom_link JNull initial_hooks (Component "Link")
           eq_refl eq_refl).
Defined.

(** A selected ghost icon-only link. *)
Lemma anchor_drops_button_attributes_witness :
  (no_space prefix = true
   /\ type_truthy (as_ ghost_link) = false
   /\ href ghost_link = Some "#"
   /\ truthy (js_opt JBool (disabled ghost_link)) = false
   /\ ("aria-pressed" ∉ (other ghost_link).*1))
  /\ host (Button ghost_link JNull initial_hooks) = Some (HostTag "a")
  /\ attr "href" (Button ghost_link JNull initial_hooks) = JStr "#"
  /\ attr "disabled" (Button ghost_link JNull initial_hooks) = JUndefined
  /\ attr "type" (Button ghost_link JNull initial_hooks) = JUndefined
  /\ attr "aria-pressed" (Button ghost_link JNull initial_hooks) = JUndefined
  /\ has_class (cls "--btn--selected") (class_attr (Button ghost_link JNull initial_hooks)).
Proof.
  assert (H1 : "disabled" ∉ (other ghost_link).*1) by by_evaluation.
  assert (H2 : "type" ∉ (other ghost_link).*1) by by_evaluation.
  assert (H3 : "aria-pressed" ∉ (other ghost_link).*1) by by_evaluation.
  assert (H4 : "#" <> "") by discriminate.
  split; [by repeat split|].
  destruct (anchor_drops_button_attributes (H := carbon) ghost_link JNull initial_hooks "#"
              eq_refl eq_refl eq_refl H4 eq_refl H1 H2 H3)
    as (Hhost & Hhref & Hdis & Hty & Haria & Hsel).
  split; [exact Hhost|]. split; [exact Hhref|]. split; [exact Hdis|].
  split; [exact Hty|]. split; [exact Haria|].
  exact (Hsel eq_refl eq_refl eq_refl).
Defined.

(** A disabled button that was given an href. *)
Lemma button_host_attributes_witness :
  (type_truthy (as_ disabled_link) = false
   /\ disabled disabled_link = Some true
   /\ ("href" ∉ (other disabled_link).*1))
  /\ host (Button disabled_link JNull initial_hooks) = Some (HostTag "button")
  /\ attr "disabled" (Button disabled_link JNull initial_hooks) = JBool true
  /\ attr "aria-pressed" (Button disabled_link JNull initial_hooks) = JNull
  /\ attr "href" (Button disabled_link JNull initial_hooks) = JUndefined.
Proof.
  assert (H1 : "href" ∉ (other disabled_link).*1) by by_evaluation.
  split; [by repeat split|].
  destruct (button_host_attributes (H := carbon) disabled_link JNull initial_hooks eq_refl
              (or_intror (or_intror eq_refl)) H1)
    as (Hhost & Hdis & _ & Haria & Hhref).
  split; [exact Hhost|]. split; [exact Hdis|]. split; [exact Haria|exact Hhref].
Defined.

(** An icon-only button that is passed a [role]. *)
Lemma rest_props_pass_through_witness :
  (NoDup (other primary_selected).*1
   /\ "role" ∈ (other primary_selected).*1)
  /\ attr "tabIndex" (Button primary_selected JNull initial_hooks) = JUndefined
  /\ attr "ref" (Button primary_selected JNull initial_hooks) = JNull
  /\ attr "role" (Button primary_selected JNull initial_hooks) = JStr "switch".
Proof.
  assert (H1 : NoDup (other primary_selected).*1) by by_evaluation.
  assert (H2 : "role" ∈ (other primary_selected).*1) by by_evaluation.
  assert (H3 : "role" ∉ [ "onMouseEnter"; "onMouseLeave"; "onFocus"; "onBlur";
                          "tabIndex"; "className"; "ref";
                          "disabled"; "type"; "aria-pressed"; "href" ])
    by by_evaluation.
  split; [by split|].
  destruct (rest_props_pass_through (H := carbon) primary_selected JNull initial_hooks "role"
              H1 H2 H3) as (Htab & _ & Href & Hrole).
  split; [exact Htab|]. split; [exact Href|exact Hrole].
Defined.

(** The icon-only button with its description. *)
Lemma validated_icon_has_label_witness :
  (renderIcon icon_button = Some "Add16"
   /\ node_truthy (children icon_button) = false
   /\ propTypes_iconDescription icon_button = None)
  /\ exists d, d <> ""
       /\ iconDescription icon_button = Some d
       /\ host (buttonImage icon_button) = Some (Component "Add16")
       /\ attr "aria-label" (buttonImage icon_button) = JStr d
       /\ attr "aria-hidden" (buttonImage icon_button) = JStr "true".
Proof.
  split; [by repeat split|].
  exact (validated_icon_has_label (H := carbon) icon_button "Add16" eq_refl eq_refl eq_refl).
Defined.

(** The icon-only button and its tooltip text. *)
Lemma tooltip_body_iff_selector_class_witness :
  (no_space prefix = true
   /\ no_space (default "" (kind icon_button)) = true
   /\ className icon_button = None)
  /\ rendered_children (Button icon_button JNull initial_hooks)
     = [assistiveText icon_button; children icon_button; buttonImage icon_button]
  /\ (assistiveText icon_button <> RNull
      <-> has_class (cls "--tooltip--a11y")
            (class_attr (Button icon_button JNull initial_hooks)))
  /\ rendered_children (assistiveText icon_button) = [RText "Add"].
Proof.
  assert (H1 : assistiveText icon_button <> RNull) by discriminate.
  split; [by repeat split|].
  destruct (tooltip_body_iff_selector_class (H := carbon) icon_button JNull initial_hooks
              eq_refl eq_refl eq_refl) as (Hkids & Hiff & Hbody).
  split; [exact Hkids|]. split; [exact Hiff|].
  exact (proj2 (proj2 (proj2 (Hbody H1)))).
Defined.

(** The icon-only button, which leaves the defaults out. *)
Lemma defaults_reach_the_element_witness :
  (no_space prefix = true
   /\ type_truthy (as_ icon_button) = false
   /\ href icon_button = None)
  /\ host (Button (defaultProps icon_button) JNull initial_hooks) = Some (HostTag "button")
  /\ attr "tabIndex" (Button (defaultProps icon_button) JNull initial_hooks) = JNum 0
  /\ attr "type" (Button (defaultProps icon_button) JNull initial_hooks) = JStr "button"
  /\ attr "disabled" (Button (defaultProps icon_button) JNull initial_hooks) = JBool false
  /\ has_class (cls "--tooltip--top")
       (class_attr (Button (defaultProps icon_button) JNull initial_hooks))
  /\ has_class (cls "--tooltip--align-center")
       (class_attr (Button (defaultProps icon_button) JNull initial_hooks)).
Proof.
  split; [by repeat split|].
  destruct (defaults_reach_the_element (H := carbon) icon_button JNull initial_hooks
              eq_refl eq_refl eq_refl) as (Hhost & Htab & Hty & Hdis & _ & Htip).
  split; [exact Hhost|]. split; [exact Htab|]. split; [exact Hty|].
  split; [exact Hdis|].
  split; [exact (proj1 (Htip eq_refl) eq_refl)|exact (proj2 (Htip eq_refl) eq_refl)].
Defined.

(** The focused button loses focus, and gets it again. *)
Lemma blur_hides_and_focus_restores_witness :
  fibers one_focused !! 0%nat
  = Some (icon_instance 11 {| allowTooltipVisibility := true; isHovered := true;
                              isFocused := true |})
  /\ hooks_of 0 (exec (handleBlur 0) one_focused) = Some blur_hooks
  /\ page (exec (handleBlur 0) one_focused) = page one_focused
  /\ pending (exec (handleBlur 0) one_focused) = pending one_focused
  /\ hooks_of 0 (exec (run [EvBlur 0; EvFocus 0 (on_node 10)]) one_focused)
     = Some {| allowTooltipVisibility := true; isHovered := true; isFocused := true |}.
Proof.
  assert (H1 : fibers one_focused !! 0%nat
               = Some (icon_instance 11 {| allowTooltipVisibility := true;
                                           isHovered := true; isFocused := true |}))
    by (vm_compute; reflexivity).
  split; [exact H1|].
  destruct (blur_hides_and_focus_restores (H := carbon) one_focused 0 _ H1)
    as (Hhooks & Hpage & Hpending & _ & Hfocus).
  split; [exact Hhooks|]. split; [exact Hpage|]. split; [exact Hpending|].
  exact (Hfocus (on_node 10)).
Defined.

(** The pointer enters the tooltip text (node 21) of the second of two
    buttons. *)
Lemma hover_on_tooltip_text_witness :
  (fibers two_mounted !! 1%nat = Some (icon_instance 21 initial_hooks)
   /\ tooltipRef (icon_instance 21 initial_hooks)
      = Some (target {| target := 21; currentTarget := 20 |}))
  /\ page (exec (handleMouseEnter 1 {| target := 21; currentTarget := 20 |}) two_mounted)
     = page two_mounted
  /\ hooks_of 1 (exec (handleMouseEnter 1 {| target := 21; currentTarget := 20 |})
                   two_mounted)
     = Some shown_hooks.
Proof.
  assert (H1 : fibers two_mounted !! 1%nat = Some (icon_instance 21 initial_hooks))
    by (vm_compute; reflexivity).
  split; [by split|].
  destruct (hover_on_tooltip_text (H := carbon) two_mounted 1 _ {| target := 21; currentTarget := 20 |}
              H1 eq_refl) as (Hpage & Hhooks & _).
  split; [exact Hpage|exact Hhooks].
Defined.

(** The letter a while a button is focused. *)
Lemma other_key_changes_nothing_witness :
  matches letter_key [keys_Escape] = false
  /\ exec (dispatchKeydown letter_key) one_focused = one_focused.
Proof.
  split; [reflexivity|].
  exact (other_key_changes_nothing (H := carbon) one_focused letter_key eq_refl).
Defined.


(** The pointer enters a mounted text button. *)
Lemma plain_button_hover_closes_tooltips_witness :
  (reachable text_mounted
   /\ fibers text_mounted !! 0%nat = Some (fresh_instance text_button 0)
   /\ hasIconOnly (props (fresh_instance text_button 0)) <> Some true)
  /\ tooltipRef (fresh_instance text_button 0) = None
  /\ page (exec (handleMouseEnter 0 (on_node 30)) text_mounted)
     = closed_page 30 (page text_mounted).
Proof.
  assert (H1 : reachable text_mounted)
    by exact (reachable_run _ _ (reachable_initial _ _)).
  assert (H2 : fibers text_mounted !! 0%nat = Some (fresh_instance text_button 0))
    by (vm_compute; reflexivity).
  assert (H3 : hasIconOnly (props (fresh_instance text_button 0)) <> Some true)
    by discriminate.
  split; [by repeat split|].
  destruct (plain_button_hover_closes_tooltips (H := carbon) text_mounted 0 _ (on_node 30) H1 H2 H3)
    as (Href & Hpage & _).
  split; [exact Href|exact Hpage].
Defined.

(** Two mounted buttons and one foreign listener. *)
Lemma one_escape_listener_per_instance_witness :
  reachable two_mounted
  /\ NoDup (esc_ids (keydown two_mounted))
  /\ length (esc_ids (keydown two_mounted)) = base.size (fibers two_mounted).
Proof.
  assert (H1 : reachable two_mounted)
    by exact (reachable_run _ _ (reachable_initial _ _)).
  split; [exact H1|].
  destruct (one_escape_listener_per_instance (H := carbon) two_mounted H1) as (Hnd & Hlen & _).
  split; [exact Hnd|exact Hlen].
Defined.

(** The pointer leaves, the button is focused 40 ms later, and 60 ms
    pass. *)
Lemma focus_does_not_cancel_hide_witness :
  (fibers one_mounted !! 0%nat = Some (icon_instance 11 initial_hooks)
   /\ isFocused (hooks (icon_instance 11 initial_hooks)) = false
   /\ (40 < 100)%nat /\ (100 <= 40 + 60)%nat)
  /\ hooks_of 0 (exec (run [EvMouseLeave 0; EvAdvance 40; EvFocus 0 (on_node 10);
                            EvAdvance 60]) one_mounted)
     = Some {| allowTooltipVisibility := false; isHovered := false; isFocused := true |}.
Proof.
  assert (H1 : fibers one_mounted !! 0%nat = Some (icon_instance 11 initial_hooks))
    by (vm_compute; reflexivity).
  assert (H2 : (40 < 100)%nat) by lia.
  assert (H3 : (100 <= 40 + 60)%nat) by lia.
  split; [by repeat split|].
  exact (proj2 (proj2 (focus_does_not_cancel_hide (H := carbon) one_mounted 0 _ (on_node 10) 40 60
                         H1 eq_refl H2 H3))).
Defined.

